(** * Request/response protocol handling of the Gemini scripts

    A shallow embedding of the payload construction, the HTTP transport,
    the response parsing and the conversation-history handling found in

      - src/gemini.espeak_and_piper.py          (module [EspeakPiper])
      - src/.old/gemini.espeak_and_piper1.py    (module [EspeakPiper1])
      - src/.old/code.py                        (module [OldCode])
      - src/gemini.espeak.py                    (module [Espeak])
      - src/gen_ai_console/gemini_handler.py    (module [GeminiHandler])

    Python values are dynamically typed; the scripts rely on that (they
    test [isinstance], truthiness, and catch the exceptions that ill-typed
    operations raise), so the embedding works over a type of JSON-shaped
    Python values and an explicit exception result. *)

From Stdlib Require Import String Ascii List ZArith Lia Bool DecimalString.
Import ListNotations.
Open Scope string_scope.
Set Warnings "-register-all".

(** ** Python values, exceptions and the handful of built-ins used *)
Module Py.

(** The values [json.load] can produce.  A JSON number written with a
    fraction or an exponent is a float, kept as the decimal [m * 10^e];
    a dict is an association list in insertion order. *)
Inductive pyval : Type :=
| PNone
| PBool (b : bool)
| PInt (z : Z)
| PFloat (m e : Z)
| PStr (s : string)
| PList (l : list pyval)
| PDict (items : list (string * pyval)).

(** A [requests.Response]: the status line, the raw body, and what
    [response.json()] gives: the decoded body, or the message of the
    decode error it raises. *)
Record response : Type := mkResponse {
  status_code : Z;
  text : string;
  json : pyval + string
}.

(** The exception classes the scripts distinguish in their [except]
    clauses.  The four first ones are the [requests.exceptions]
    hierarchy ([RequestException] stands for any member that is none of
    the three named subclasses); an [HTTPError] carries the response
    that [raise_for_status] attaches to it. *)
Inductive exn : Type :=
| Timeout (msg : string)
| ConnectionError (msg : string)
| HTTPError (msg : string) (resp : response)
| RequestException (msg : string)
| JSONDecodeError (msg : string)
| AttributeError
| TypeError
| KeyError
| IndexError
| ValueError (msg : string)
| OtherException (msg : string).

(** Result of running a piece of Python: a value or a raised exception. *)
Inductive outcome (A : Type) : Type :=
| Return (a : A)
| Raise (e : exn).
Arguments Return {A} a.
Arguments Raise {A} e.

Definition bind {A B : Type} (m : outcome A) (k : A -> outcome B) : outcome B :=
  match m with
  | Return a => k a
  | Raise e => Raise e
  end.

Notation "x <- m ;; k" := (bind m (fun x => k))
  (at level 61, m at next level, right associativity).

(** [try: m except Exception as e: h e], for handlers that return. *)
Definition try_except {A : Type} (m : outcome A) (h : exn -> A) : A :=
  match m with
  | Return a => a
  | Raise e => h e
  end.

(** What the interpreter and the libraries render as text: [repr] of a
    non-string value, [json.dumps], the message of a built-in exception,
    the message [raise_for_status] gives its [HTTPError], and whether the decode error of [response.json()] belongs to the
    [requests] hierarchy (it does from requests 2.27 on). *)
Record Runtime : Type := mkRuntime {
  repr : pyval -> string;
  json_dumps : pyval -> string;
  builtin_msg : exn -> string;
  http_error_msg : response -> string;
  json_error_is_request_exception : bool
}.

(** [isinstance(e, requests.exceptions.RequestException)] *)
Definition is_RequestException (rt : Runtime) (e : exn) : bool :=
  match e with
  | Timeout _ | ConnectionError _ | HTTPError _ _ | RequestException _ => true
  | JSONDecodeError _ => json_error_is_request_exception rt
  | _ => false
  end.

(** [str(e)] *)
Definition str_exn (rt : Runtime) (e : exn) : string :=
  match e with
  | Timeout m | ConnectionError m | HTTPError m _ | RequestException m
  | JSONDecodeError m | ValueError m | OtherException m => m
  | AttributeError | TypeError | KeyError | IndexError => builtin_msg rt e
  end.

(** [str(v)], which is also what an f-string field [{v}] inserts. *)
Definition str (rt : Runtime) (v : pyval) : string :=
  match v with
  | PStr s => s
  | _ => repr rt v
  end.

(** [str(n)] for an integer. *)
Definition str_int (z : Z) : string := NilZero.string_of_int (Z.to_int z).

(** [str(type(v))] *)
Definition type_name (v : pyval) : string :=
  match v with
  | PNone => "NoneType"
  | PBool _ => "bool"
  | PInt _ => "int"
  | PFloat _ _ => "float"
  | PStr _ => "str"
  | PList _ => "list"
  | PDict _ => "dict"
  end.

Definition str_type (v : pyval) : string :=
  "<class '" ++ type_name v ++ "'>".

(** [bool(v)] *)
Definition truthy (v : pyval) : bool :=
  match v with
  | PNone => false
  | PBool b => b
  | PInt z => negb (Z.eqb z 0)
  | PFloat m _ => negb (Z.eqb m 0)
  | PStr s => negb (String.eqb s "")
  | PList l => match l with [] => false | _ => true end
  | PDict d => match d with [] => false | _ => true end
  end.

(** [isinstance(v, str)] *)
Definition isinstance_str (v : pyval) : bool :=
  match v with PStr _ => true | _ => false end.

(** [v == s] for a string literal [s]. *)
Definition eq_str (v : pyval) (s : string) : bool :=
  match v with PStr t => String.eqb t s | _ => false end.

Fixpoint lookup (k : string) (d : list (string * pyval)) : option pyval :=
  match d with
  | [] => None
  | (k', v) :: d' => if String.eqb k k' then Some v else lookup k d'
  end.

(** [v.get(k, default)]; only dicts have the method. *)
Definition get_default (v : pyval) (k : string) (default : pyval) : outcome pyval :=
  match v with
  | PDict d => Return (match lookup k d with Some x => x | None => default end)
  | _ => Raise AttributeError
  end.

(** [v.get(k)] *)
Definition get (v : pyval) (k : string) : outcome pyval := get_default v k PNone.

(** [v[k]] for a string key. *)
Definition getitem (v : pyval) (k : string) : outcome pyval :=
  match v with
  | PDict d => match lookup k d with Some x => Return x | None => Raise KeyError end
  | _ => Raise TypeError
  end.

(** The characters of a string, as one-character strings. *)
Fixpoint chars (s : string) : list pyval :=
  match s with
  | EmptyString => []
  | String c s' => PStr (String c EmptyString) :: chars s'
  end.

(** [v[0]] *)
Definition getitem0 (v : pyval) : outcome pyval :=
  match v with
  | PList (x :: _) => Return x
  | PList [] => Raise IndexError
  | PStr (String c _) => Return (PStr (String c EmptyString))
  | PStr EmptyString => Raise IndexError
  | PDict _ => Raise KeyError
  | _ => Raise TypeError
  end.

(** [iter(v)]: the elements a [for] loop or a comprehension visits. *)
Definition iter (v : pyval) : outcome (list pyval) :=
  match v with
  | PList l => Return l
  | PStr s => Return (chars s)
  | PDict d => Return (map (fun kv => PStr (fst kv)) d)
  | _ => Raise TypeError
  end.

(** [len(v)] *)
Definition len (v : pyval) : outcome nat :=
  match v with
  | PList l => Return (List.length l)
  | PStr s => Return (String.length s)
  | PDict d => Return (List.length d)
  | _ => Raise TypeError
  end.

(** [q, a = v]: unpacking into exactly two targets. *)
Definition unpack2 (v : pyval) : outcome (pyval * pyval) :=
  match iter v with
  | Return [x; y] => Return (x, y)
  | Return (_ :: _ :: _ :: _) =>
      Raise (ValueError "too many values to unpack (expected 2)")
  | Return l =>
      Raise (ValueError ("not enough values to unpack (expected 2, got "
                           ++ str_int (Z.of_nat (List.length l)) ++ ")"))
  | Raise e => Raise e
  end.

(** *** Strings

    A Python [str] is modelled by a Rocq [string] whose characters are
    the code points 0..255. *)

Definition startswith (s p : string) : bool := String.prefix p s.

Fixpoint rev_string (s : string) : string :=
  match s with
  | EmptyString => EmptyString
  | String c s' => rev_string s' ++ String c EmptyString
  end.

Definition endswith (s p : string) : bool :=
  String.prefix (rev_string p) (rev_string s).

(** [c.isspace()] *)
Definition isspace (c : ascii) : bool :=
  let n := nat_of_ascii c in
  ((9 <=? n)%nat && (n <=? 13)%nat) || ((28 <=? n)%nat && (n <=? 32)%nat)
  || (n =? 133)%nat || (n =? 160)%nat.

Fixpoint lstrip (s : string) : string :=
  match s with
  | EmptyString => EmptyString
  | String c s' => if isspace c then lstrip s' else s
  end.

Definition rstrip (s : string) : string := rev_string (lstrip (rev_string s)).

(** [s.strip()] *)
Definition strip (s : string) : string := rstrip (lstrip s).

(** The characters at which [str.splitlines] breaks, CR LF apart. *)
Definition is_linebreak (c : ascii) : bool :=
  let n := nat_of_ascii c in
  ((10 <=? n)%nat && (n <=? 13)%nat) || ((28 <=? n)%nat && (n <=? 30)%nat)
  || (n =? 133)%nat.

Definition is_CR (c : ascii) : bool := (nat_of_ascii c =? 13)%nat.
Definition is_LF (c : ascii) : bool := (nat_of_ascii c =? 10)%nat.

Fixpoint splitlines_from (cur s : string) : list string :=
  match s with
  | EmptyString => if String.eqb cur "" then [] else [cur]
  | String c rest =>
      if is_CR c then
        match rest with
        | String d rest' =>
            if is_LF d then cur :: splitlines_from "" rest'
            else cur :: splitlines_from "" rest
        | EmptyString => [cur]
        end
      else if is_linebreak c then cur :: splitlines_from "" rest
      else splitlines_from (cur ++ String c EmptyString) rest
  end.

(** [s.splitlines()] *)
Definition splitlines (s : string) : list string := splitlines_from "" s.

Fixpoint split_from (cur s : string) : list string :=
  match s with
  | EmptyString => if String.eqb cur "" then [] else [cur]
  | String c rest =>
      if isspace c then
        (if String.eqb cur "" then split_from "" rest
         else cur :: split_from "" rest)
      else split_from (cur ++ String c EmptyString) rest
  end.

(** [s.split()] with no argument: the whitespace-separated words. *)
Definition split (s : string) : list string := split_from "" s.

(** [sep.join(l)] for a list of strings. *)
Definition join (sep : string) (l : list string) : string := String.concat sep l.

(** [s[n:]] and [s[:n]] *)
Definition drop (n : nat) (s : string) : string :=
  substring n (String.length s - n) s.
Definition take (n : nat) (s : string) : string := substring 0 n s.

(** [l[1:-1]] *)
Definition slice_1_m1 {A : Type} (l : list A) : list A :=
  removelast (tl l).

(** [l[-n:]].  For [n = 0] the lower bound is [-0 = 0]: the whole list. *)
Definition slice_last {A : Type} (n : nat) (l : list A) : list A :=
  match n with
  | O => l
  | _ => skipn (List.length l - n) l
  end.

(** Running [f] over a list, stopping at the first exception. *)
Fixpoint map_outcome {A B : Type} (f : A -> outcome B) (l : list A) : outcome (list B) :=
  match l with
  | [] => Return []
  | x :: l' =>
      y <- f x ;;
      ys <- map_outcome f l' ;;
      Return (y :: ys)
  end.

(** [sep.join(l)] for a list of values: every item must be a [str]. *)
Fixpoint join_values (sep : string) (l : list pyval) : outcome string :=
  match l with
  | [] => Return ""
  | PStr s :: l' =>
      r <- join_values sep l' ;;
      Return (match l' with [] => s | _ => s ++ sep ++ r end)
  | _ :: _ => Raise TypeError
  end.

(** ["".join(part.get('text', '') for part in parts)]: the generator is
    run to its end first, then [join] checks that every item is a [str]. *)
Definition join_part_texts (parts : list pyval) : outcome string :=
  ts <- map_outcome (fun part => get_default part "text" (PStr "")) parts ;;
  join_values "" ts.

(** [s in t] for strings: substring test. *)
Fixpoint contains_str (sub s : string) : bool :=
  String.prefix sub s ||
  match s with
  | EmptyString => false
  | String _ s' => contains_str sub s'
  end.

(** [k in v] for a string [k]. *)
Definition contains (k : string) (v : pyval) : outcome bool :=
  match v with
  | PDict d => Return (match lookup k d with Some _ => true | None => false end)
  | PList l => Return (existsb (fun x => eq_str x k) l)
  | PStr s => Return (contains_str k s)
  | _ => Raise TypeError
  end.

(** [v.startswith(p)]; only strings have the method. *)
Definition startswith_val (v : pyval) (p : string) : outcome bool :=
  match v with
  | PStr s => Return (startswith s p)
  | _ => Raise AttributeError
  end.

(** [v.strip()]; only strings have the method. *)
Definition strip_val (v : pyval) : outcome string :=
  match v with
  | PStr s => Return (strip s)
  | _ => Raise AttributeError
  end.

(** The line feed character, written [\n] in the sources. *)
Definition nl : string := String (ascii_of_nat 10) EmptyString.

(** [c.lower()] on the code points 0..255. *)
Definition lower_char (c : ascii) : ascii :=
  let n := nat_of_ascii c in
  if ((65 <=? n)%nat && (n <=? 90)%nat)
     || ((192 <=? n)%nat && (n <=? 222)%nat && negb (n =? 215)%nat)
  then ascii_of_nat (n + 32)
  else c.

(** [s.lower()] *)
Fixpoint lower (s : string) : string :=
  match s with
  | EmptyString => EmptyString
  | String c s' => String (lower_char c) (lower s')
  end.

(** The first word of a string that does not start with whitespace, and
    what follows it. *)
Fixpoint break_word (s : string) : string * string :=
  match s with
  | EmptyString => (EmptyString, EmptyString)
  | String c rest =>
      if isspace c then (EmptyString, s)
      else let (w, r) := break_word rest in (String c w, r)
  end.

(** [s.split(maxsplit=1)]: the first word and, if anything but
    whitespace follows it, the rest with its leading whitespace removed. *)
Definition split_maxsplit1 (s : string) : list string :=
  match lstrip s with
  | EmptyString => []
  | s1 =>
      let (w, rest) := break_word s1 in
      match lstrip rest with
      | EmptyString => [w]
      | r => [w; r]
      end
  end.

(** [re.sub(r'[...]', '', s)] for a character class: the characters of
    the class are dropped. *)
Fixpoint remove_chars (class : ascii -> bool) (s : string) : string :=
  match s with
  | EmptyString => EmptyString
  | String c s' =>
      if class c then remove_chars class s' else String c (remove_chars class s')
  end.

(** [re.sub(r'\s+', ' ', s)]: every run of whitespace becomes one space
    ([in_run] says that the previous character was whitespace). *)
Fixpoint sub_spaces_from (in_run : bool) (s : string) : string :=
  match s with
  | EmptyString => EmptyString
  | String c s' =>
      if isspace c then
        (if in_run then sub_spaces_from true s'
         else String " " (sub_spaces_from true s'))
      else String c (sub_spaces_from false s')
  end.

Definition sub_spaces (s : string) : string := sub_spaces_from false s.

(** [s.replace(old, new)] for a non-empty [old]: the occurrences are
    replaced from left to right without overlap ([skip] counts the
    characters of an occurrence still to be passed over). *)
Fixpoint replace_from (skip : nat) (old new s : string) : string :=
  match s with
  | EmptyString => EmptyString
  | String c s' =>
      match skip with
      | S k => replace_from k old new s'
      | O =>
          if String.prefix old s
          then new ++ replace_from (String.length old - 1) old new s'
          else String c (replace_from 0 old new s')
      end
  end.

Definition replace (old new s : string) : string := replace_from 0 old new s.

(** [d[k] = v] on a dict: the value of an existing key is replaced in
    place, a new key goes last. *)
Fixpoint setitem (k : string) (v : pyval) (d : list (string * pyval))
    : list (string * pyval) :=
  match d with
  | [] => [(k, v)]
  | (k', v') :: d' =>
      if String.eqb k k' then (k, v) :: d' else (k', v') :: setitem k v d'
  end.

(** Whether every character of [s] satisfies [p]. *)
Fixpoint all_chars (p : ascii -> bool) (s : string) : bool :=
  match s with
  | EmptyString => true
  | String c s' => p c && all_chars p s'
  end.

(** Whether the character [c] is one of [set]. *)
Fixpoint char_in (set : string) (c : ascii) : bool :=
  match set with
  | EmptyString => false
  | String d set' => Ascii.eqb c d || char_in set' c
  end.

(** The double quote character. *)
Definition dquote : string := String (ascii_of_nat 34) EmptyString.

(** *** The network

    [requests.post] is the only effect of the transport code.  A call is
    described by the arguments the scripts pass; the network answers
    with a response or makes [requests.post] raise.  The constant
    [Content-Type] header is left out. *)
Record request : Type := mkRequest {
  req_url : string;
  req_json : pyval;
  req_timeout : option Z
}.

Definition network : Type := request -> outcome response.

(** [response.raise_for_status()] *)
Definition raise_for_status (rt : Runtime) (r : response) : outcome unit :=
  if ((400 <=? status_code r) && (status_code r <? 600))%Z
  then Raise (HTTPError (http_error_msg rt r) r)
  else Return tt.

(** [response.json()] *)
Definition response_json (r : response) : outcome pyval :=
  match json r with
  | inl v => Return v
  | inr msg => Raise (JSONDecodeError msg)
  end.

(** *** Files

    [/save] writes the history with [json.dump], [/load] reads it back
    with [json.load]; the [json] module is a library, so the encoding is
    a parameter: what [json.dump(v, f, indent=2)] leaves in the file and
    what [json.load] makes of a file. *)
Record JsonFile : Type := mkJsonFile {
  file : Type;
  json_dump : pyval -> file;
  json_load : file -> outcome pyval
}.

(** Decoding what was encoded gives the value back, which is what the
    [json] module does on the values of [pyval]. *)
Definition json_roundtrip (J : JsonFile) : Prop :=
  forall v : pyval, json_load J (json_dump J v) = Return v.

(** One entry of [contents]:
    [{"role": role, "parts": [{"text": text}]}] *)
Definition content_entry (role : string) (txt : pyval) : pyval :=
  PDict [("role", PStr role); ("parts", PList [PDict [("text", txt)]])].

End Py.

Import Py.

(** ** Blocks the scripts repeat verbatim

    [_format_gemini_payload] opens with the same loop and the same
    comprehension in gemini.espeak_and_piper.py, gemini.espeak_and_piper1.py
    and code.py; the two old scripts end [_parse_gemini_response] with the
    same fence-removal block and trim the history with the same slice. *)
Module Shared.

Section WithRuntime.
Context (rt : Runtime).

(** The [for q, a in history] loop of [_format_gemini_payload]: the
    entries appended to [conversation] and the warnings printed.  An
    entry that does not unpack into two values raises out of the loop. *)
Fixpoint history_entries (history : list pyval) : list string * outcome (list pyval) :=
  match history with
  | [] => ([], Return [])
  | item :: rest =>
      match unpack2 item with
      | Raise e => ([], Raise e)
      | Return (q, a) =>
          let (log, r) := history_entries rest in
          if isinstance_str q && isinstance_str a then
            (log, conv <- r ;;
                  Return (content_entry "user" q :: content_entry "model" a :: conv))
          else
            (("Warning: Skipping invalid history entry: ("
                ++ str_type q ++ ", " ++ str_type a ++ ")") :: log, r)
      end
  end.

(** [[f"User: {q}\nModel: {a}" for q, a in history]] *)
Definition history_lines (history : list pyval) : outcome (list string) :=
  map_outcome
    (fun item =>
       qa <- unpack2 item ;;
       Return ("User: " ++ str rt (fst qa) ++ nl ++ "Model: " ++ str rt (snd qa)))
    history.

End WithRuntime.

(** The block under [# --- Code Cleaning] of [_parse_gemini_response]. *)
Definition clean_fences (text : string) : string :=
  if startswith text "```" && endswith text "```" then
    let lines := splitlines text in
    if (1 <? List.length lines)%nat then
      let first_line_content := strip (drop 3 (strip (hd "" lines))) in
      if (List.length (split first_line_content) <=? 1)%nat
      then strip (join nl (slice_1_m1 lines))
      else text
    else text
  else text.

(** [MAX_HISTORY = 10] of the old scripts; gemini.espeak_and_piper.py
    writes the literal. *)
Definition MAX_HISTORY : nat := 10.

(** [history.append([query, response]); history = history[-MAX_HISTORY:]] *)
Definition store_interaction (history : list pyval) (query : string)
    (response : pyval) : list pyval :=
  slice_last MAX_HISTORY (history ++ [PList [PStr query; response]]).

(** [_call_gemini_api(url, api_key, headers, data)] of the two old
    scripts, which differ in the timeout only: the response, or an
    error string.  Every exception has a clause. *)
Section Transport.
Context (rt : Runtime).

(** The [except requests.exceptions.HTTPError as http_err] clause. *)
Definition http_error_text (http_err_msg : string) (resp : response) : string :=
  let status := str_int (status_code resp) in
  match (error_details <- response_json resp ;;
         api_error <- get_default error_details "error" (PDict []) ;;
         api_error_message <- get_default api_error "message"
                                (PStr "Unknown API error") ;;
         Return ("Error: HTTP " ++ status ++ " - " ++ str rt api_error_message)) with
  | Return s => s
  | Raise (JSONDecodeError _) =>
      "Error: HTTP " ++ status ++ " - " ++ http_err_msg ++ ". Response: "
        ++ take 200 (text resp) ++ "..."
  | Raise _ => "Error: HTTP " ++ status ++ " - " ++ http_err_msg
  end.

Definition call_gemini_api (timeout : Z) (net : network) (url api_key : string)
    (data : pyval) : response + string :=
  match (response <- net (mkRequest (url ++ "?key=" ++ api_key) data (Some timeout)) ;;
         _ <- raise_for_status rt response ;;
         Return response) with
  | Return response => inl response
  | Raise (Timeout _) => inr "Error: API request timed out."
  | Raise (HTTPError msg resp) => inr (http_error_text msg resp)
  | Raise e =>
      if is_RequestException rt e
      then inr ("Error communicating with API: " ++ str_exn rt e)
      else inr ("An unexpected error occurred during API call: " ++ str_exn rt e)
  end.

End Transport.

End Shared.

(** ** src/gemini.espeak_and_piper.py *)
Module EspeakPiper.

Section WithRuntime.
Context (rt : Runtime).

(** [_format_gemini_payload(query, history, modifier)]: the printed
    warnings and the payload (or the exception raised).  [history] is a
    list; [None], the default, behaves as the empty list. *)
Definition _format_gemini_payload (query : string) (history : list pyval)
    (modifier : string) : list string * outcome pyval :=
  let (log, conversation) := Shared.history_entries history in
  (log,
   conv <- conversation ;;
   history_context <-
     match history with
     | [] => Return "None"
     | _ => ls <- Shared.history_lines rt history ;; Return (join nl ls)
     end ;;
   let current_query_text :=
     match history with
     | [] => if String.eqb modifier "" then query
             else modifier ++ nl ++ "Query: " ++ query
     | _ => modifier ++ nl ++ "---" ++ nl ++ "Previous Context:" ++ nl
              ++ history_context ++ nl ++ "---" ++ nl ++ "Current Query:" ++ nl
              ++ query
     end in
   Return (PDict [("contents",
                   PList (conv ++ [content_entry "user" (PStr current_query_text)]))])).

(** The arguments [_call_gemini_api] passes to [requests.post]. *)
Definition api_request (url api_key : string) (data : pyval) : request :=
  mkRequest (url ++ "?key=" ++ api_key) data (Some 60%Z).

(** [_call_gemini_api(url, api_key, headers, data)]: the response, or an
    error string.  Only [Timeout] and [RequestException] are caught. *)
Definition _call_gemini_api (net : network) (url api_key : string) (data : pyval)
    : outcome (response + string) :=
  match (response <- net (api_request url api_key data) ;;
         _ <- raise_for_status rt response ;;
         Return response) with
  | Return response => Return (inl response)
  | Raise (Timeout _) => Return (inr "Error: API request timed out.")
  | Raise e =>
      if is_RequestException rt e
      then Return (inr ("Error communicating with API: " ++ str_exn rt e))
      else Raise e
  end.

(** The [try] block of [_parse_gemini_response], from the decoded body on. *)
Definition parse_body (response_data : pyval) : outcome pyval :=
  candidates <- get response_data "candidates" ;;
  if negb (truthy candidates) then
    prompt_feedback <- get response_data "promptFeedback" ;;
    if truthy prompt_feedback then
      block_reason <- get prompt_feedback "blockReason" ;;
      safety_ratings <- get prompt_feedback "safetyRatings" ;;
      Return (PStr ("Error: Response blocked. Reason: " ++ str rt block_reason
                      ++ ". Ratings: " ++ str rt safety_ratings))
    else
      api_error <- get response_data "error" ;;
      if truthy api_error then
        message <- get_default api_error "message" (PStr "Unknown API error") ;;
        Return (PStr ("Error from API: " ++ str rt message))
      else
        Return (PStr ("Error: No candidates found in response. Response JSON: "
                        ++ str rt response_data))
  else
    candidate <- getitem0 candidates ;;
    if negb (truthy candidate) then
      Return (PStr "Error: Received empty candidate.")
    else
      content <- get candidate "content" ;;
      if negb (truthy content) then
        finish_reason <- get candidate "finishReason" ;;
        safety_ratings <- get candidate "safetyRatings" ;;
        if truthy finish_reason && negb (eq_str finish_reason "STOP") then
          Return (PStr ("Error: Candidate finished unexpectedly. Reason: "
                          ++ str rt finish_reason ++ ". Safety Ratings: "
                          ++ str rt safety_ratings))
        else Return (PStr "Error: No content found in candidate.")
      else
        parts <- get content "parts" ;;
        if negb (truthy parts) then
          text_direct <- get content "text" ;;
          if truthy text_direct then Return text_direct
          else Return (PStr "Error: No parts found in content.")
        else
          part <- getitem0 parts ;;
          text <- get_default part "text" (PStr "") ;;
          if truthy text then Return text
          else
            n <- len parts ;;
            if Nat.eqb n 0
            then Return (PStr "Warning: Received content with zero parts.")
            else Return (PStr "Warning: Empty text received in the first part.").

(** [_parse_gemini_response(response)] *)
Definition _parse_gemini_response (response : response + string) : pyval :=
  match response with
  | inr s => PStr s
  | inl r =>
      try_except (response_data <- response_json r ;; parse_body response_data)
        (fun e =>
           match e with
           | JSONDecodeError _ =>
               PStr ("Error decoding API response JSON: " ++ str_exn rt e
                       ++ ". Response text: " ++ take 500 (text r) ++ "...")
           | _ =>
               let response_data_str :=
                 match json r with
                 | inl response_data => take 500 (str rt response_data)
                 | inr _ => "N/A"
                 end in
               PStr ("Error processing API response structure: " ++ str_exn rt e
                       ++ ". Response JSON: " ++ response_data_str)
           end)
  end.

Definition url : string :=
  "https://generativelanguage.googleapis.com/v1beta/models/gemini-2.5-pro-exp-03-25:generateContent".

(** [get_gemini_response(query, history, modifier)]; [env_key] is what
    [os.getenv("GEMINI_API_KEY")] gives. *)
Definition get_gemini_response (net : network) (env_key : option string)
    (query : string) (history : list pyval) (modifier : string) : outcome pyval :=
  match env_key with
  | None => Raise (ValueError "API key not found. Set GEMINI_API_KEY.")
  | Some api_key =>
      if String.eqb api_key "" then
        Raise (ValueError "API key not found. Set GEMINI_API_KEY.")
      else
        payload_data <- snd (_format_gemini_payload query history modifier) ;;
        api_response <- _call_gemini_api net url api_key payload_data ;;
        Return (_parse_gemini_response api_response)
  end.

Definition modifier : string :=
  "You are a code-based instantiation of pure, computational logic. Provide concise, factual responses.".

(** The two lines under [# Store interaction in history]. *)
Definition store_interaction (history : list pyval) (query : string)
    (response : pyval) : list pyval :=
  slice_last 10 (history ++ [PList [PStr query; response]]).

(** One pass of the [while True] body of [main] for a query that is not
    a command, up to the update of [history] (speech output follows and
    does not touch it). *)
Definition chat_turn (net : network) (env_key : option string)
    (history : list pyval) (query : string) : outcome (list pyval) :=
  response <- get_gemini_response net env_key query history modifier ;;
  is_error <- startswith_val response "Error:" ;;
  if negb is_error then Return (store_interaction history query response)
  else Return history.

(** The same pass with the [except] clauses of the loop: the history
    after it, and whether the loop goes on. *)
Definition main_turn (net : network) (env_key : option string)
    (history : list pyval) (query : string) : list pyval * bool :=
  match chat_turn net env_key history query with
  | Return history' => (history', true)
  | Raise (ValueError _) => (history, false)
  | Raise _ => (history, true)
  end.

(** [/save <file>]: what [json.dump(history, f, indent=2)] writes. *)
Definition save_history (J : JsonFile) (history : list pyval) : file J :=
  json_dump J (PList history).

(** The test guarding [history = loaded_history] in [/load]. *)
Definition valid_loaded (loaded_history : pyval) : bool :=
  match loaded_history with
  | PList items =>
      forallb (fun item =>
                 match item with
                 | PList l => Nat.eqb (List.length l) 2
                 | _ => false
                 end) items
  | _ => false
  end.

(** [/load <file>] on a file that exists: the history afterwards.  A
    decoding error or an invalid shape leaves the history as it was. *)
Definition load_history (J : JsonFile) (history : list pyval) (f : file J)
    : list pyval :=
  match json_load J f with
  | Return (PList items) =>
      if valid_loaded (PList items) then items else history
  | _ => history
  end.

(** The cleaning at the head of [text_to_speech]: the class of the
    first [re.sub], then the five [replace] calls. *)
Definition markdown_char (c : ascii) : bool := char_in "*_`#~" c.

Definition clean_for_speech (text : string) : string :=
  let cleaned_text := remove_chars markdown_char text in
  let cleaned_text := replace "__" "" (replace "**" "" cleaned_text) in
  let cleaned_text := replace "_" "" (replace "*" "" cleaned_text) in
  replace dquote "'" cleaned_text.

(** The argument vector [text_to_speech] runs for the [espeak] engine,
    or [None] when it returns without speaking (no text, or nothing but
    whitespace left after the cleaning). *)
Definition espeak_command (text voice : string) (speed pitch : Z)
    : option (list string) :=
  if String.eqb text "" then None
  else
    let cleaned_text := clean_for_speech text in
    if String.eqb (strip cleaned_text) "" then None
    else Some ["espeak-ng"; "-v"; voice; "-s"; str_int speed; "-p"; str_int pitch;
               cleaned_text].

(** What one pass of the loop of [main] depends on besides the history
    and the line typed: the network, the API key of the environment, and
    what [open(filename, 'r')] gives. *)
Record world (J : JsonFile) : Type := mkWorld {
  w_net : network;
  w_key : option string;
  w_open : string -> outcome (file J)
}.
Arguments w_net {J} w.
Arguments w_key {J} w.
Arguments w_open {J} w.

(** The state after one pass of the [while True] loop of [main] on the
    line [raw_input]: the history, whether the loop goes on, and the
    file [/save] tried to write, if any. *)
Definition main_step (J : JsonFile) (w : world J) (history : list pyval)
    (raw_input : string)
    : list pyval * bool * option (string * file J) :=
  let query := strip raw_input in
  if String.eqb query "" then (history, true, None)
  else if String.eqb (lower query) "exit" then (history, false, None)
  else if String.eqb (lower query) "/clear" then ([], true, None)
  else if startswith (lower query) "/save " then
    match split_maxsplit1 query with
    | [_; filename] => (history, true, Some (filename, save_history J history))
    | _ => (history, true, None)
    end
  else if startswith (lower query) "/load " then
    match split_maxsplit1 query with
    | [_; filename] =>
        match w_open w filename with
        | Return f => (load_history J history f, true, None)
        | Raise _ => (history, true, None)
        end
    | _ => (history, true, None)
    end
  else
    let (history', running) := main_turn (w_net w) (w_key w) history query in
    (history', running, None).

End WithRuntime.

Arguments w_net {J} w.
Arguments w_key {J} w.
Arguments w_open {J} w.

End EspeakPiper.

(** ** src/.old/gemini.espeak_and_piper1.py *)
Module EspeakPiper1.

Section WithRuntime.
Context (rt : Runtime).

(** [_format_gemini_payload(query, history, modifier)] *)
Definition _format_gemini_payload (query : string) (history : list pyval)
    (modifier : string) : list string * outcome pyval :=
  let (log, conversation) := Shared.history_entries history in
  (log,
   conv <- conversation ;;
   full_query <-
     match history with
     | [] => Return (if String.eqb modifier "" then query
                     else modifier ++ nl ++ "---" ++ nl ++ "Query:" ++ nl ++ query)
     | _ =>
         ls <- Shared.history_lines rt history ;;
         Return (modifier ++ nl ++ "---" ++ nl ++ "Previous Conversation Context:"
                   ++ nl ++ join nl ls ++ nl ++ "---" ++ nl ++ "Current Query:"
                   ++ nl ++ query)
     end ;;
   Return (PDict [("contents",
                   PList (conv ++ [content_entry "user" (PStr full_query)]))])).

(** The text taken from [content] under [# --- Content Extraction ---]. *)
Definition extract_text (content : pyval) : outcome string :=
  if truthy content then
    has_parts <- contains "parts" content ;;
    parts_ok <- (if has_parts : bool
                 then parts <- getitem content "parts" ;; Return (truthy parts)
                 else Return false) ;;
    if parts_ok : bool then
      parts <- getitem content "parts" ;;
      items <- iter parts ;;
      joined <- join_part_texts items ;;
      Return (strip joined)
    else
      has_text <- contains "text" content ;;
      if has_text : bool then
        direct <- getitem content "text" ;;
        strip_val direct
      else Return ""
  else Return "".

(** The [if prompt_feedback:] block: the error it returns, if any. *)
Definition prompt_block (response_data : pyval) : outcome (option string) :=
  prompt_feedback <- get response_data "promptFeedback" ;;
  if truthy prompt_feedback then
    block_reason <- get prompt_feedback "blockReason" ;;
    if truthy block_reason
       && negb (eq_str block_reason "BLOCK_REASON_UNSPECIFIED") then
      _ <- get prompt_feedback "safetyRatings" ;;
      Return (Some ("Error: Response blocked due to content policy (default). Reason: "
                      ++ str rt block_reason ++ "."))
    else Return None
  else Return None.

(** The checks under [# --- Post-Extraction Checks ---] and the code
    cleaning, given what was read from the candidate. *)
Definition finish (candidate finish_reason safety_ratings : pyval) (text : string)
    : string :=
  let has_text := negb (String.eqb text "") in
  if truthy finish_reason
     && negb (eq_str finish_reason "STOP"
              || eq_str finish_reason "FINISH_REASON_UNSPECIFIED") then
    if eq_str finish_reason "MAX_TOKENS" then
      if has_text then
        "Warning: MAX_TOKENS limit reached. Output may be incomplete." ++ nl
          ++ "---" ++ nl ++ text
      else
        "Error: Candidate finished due to maximum token limit ("
          ++ str rt finish_reason ++ "). No partial content extracted."
    else if eq_str finish_reason "SAFETY" then
      let ratings_str :=
        if truthy safety_ratings then json_dumps rt safety_ratings else "N/A" in
      if has_text then
        "Warning: SAFETY block triggered. Output may be filtered or incomplete."
          ++ nl ++ "---" ++ nl ++ text
      else
        "Error: Candidate content blocked due to safety (default policy - "
          ++ str rt finish_reason ++ "). Ratings: " ++ ratings_str
    else
      if has_text then
        "Warning: Unexpected finish reason (" ++ str rt finish_reason
          ++ "). Output may be incomplete." ++ nl ++ "---" ++ nl ++ text
      else
        "Error: Candidate finished unexpectedly. Reason: " ++ str rt finish_reason
          ++ ". Safety Ratings: " ++ str rt safety_ratings
  else if eq_str finish_reason "STOP" && negb has_text then
    "Warning: Received response with no content (finish reason: STOP)."
  else if negb has_text && negb (eq_str finish_reason "STOP") then
    "Error: Failed to extract text content from candidate. Finish Reason: "
      ++ str rt finish_reason ++ ". Candidate: " ++ json_dumps rt candidate
  else Shared.clean_fences text.

(** The [try] block of [_parse_gemini_response], from the decoded body on. *)
Definition parse_body (response_data : pyval) : outcome string :=
  api_error <- get response_data "error" ;;
  if truthy api_error then
    message <- get_default api_error "message" (PStr "Unknown API error") ;;
    code <- get_default api_error "code" (PStr "N/A") ;;
    Return ("Error from API: " ++ str rt message
              ++ " (Code: " ++ str rt code ++ ")")
  else
    blocked <- prompt_block response_data ;;
    match blocked with
    | Some err => Return err
    | None =>
        candidates <- get response_data "candidates" ;;
        if negb (truthy candidates) then
          Return ("Error: No candidates found in response and no blocking reason identified. Response JSON: "
                    ++ json_dumps rt response_data)
        else
          candidate <- getitem0 candidates ;;
          if negb (truthy candidate) then
            Return ("Error: Received empty or invalid candidate list. Response JSON: "
                      ++ json_dumps rt response_data)
          else
            finish_reason <- get candidate "finishReason" ;;
            safety_ratings <- get candidate "safetyRatings" ;;
            content <- get candidate "content" ;;
            text <- extract_text content ;;
            Return (finish candidate finish_reason safety_ratings text)
    end.

(** [_parse_gemini_response(response)]; the argument is what
    [_call_gemini_api] returned: a response or an error string. *)
Definition _parse_gemini_response (response : response + string) : string :=
  match response with
  | inr s => s
  | inl r =>
      try_except (response_data <- response_json r ;; parse_body response_data)
        (fun e =>
           let response_data_str :=
             match json r with
             | inl response_data => take 500 (str rt response_data)
             | inr _ => "N/A"
             end in
           match e with
           | JSONDecodeError _ =>
               "Error decoding API response JSON: " ++ str_exn rt e
                 ++ ". Response text: " ++ take 500 (text r) ++ "..."
           | IndexError =>
               "Error processing API response: Invalid candidate structure. Response JSON slice: "
                 ++ response_data_str
           | _ =>
               "Error processing API response structure: " ++ str_exn rt e
                 ++ ". Response JSON slice: " ++ response_data_str
           end)
  end.

(** [_call_gemini_api]: [timeout=180]. *)
Definition _call_gemini_api (net : network) (url api_key : string) (data : pyval)
    : response + string :=
  Shared.call_gemini_api rt 180 net url api_key data.

Definition url : string :=
  "https://generativelanguage.googleapis.com/v1beta/models/gemini-1.5-flash-latest:generateContent".

Definition generation_config : pyval :=
  PDict [("temperature", PFloat 6 (-1)); ("topP", PFloat 95 (-2));
         ("topK", PInt 40); ("maxOutputTokens", PInt 8192)].

(** [payload_data["generationConfig"] = generation_config] *)
Definition with_generation_config (config payload_data : pyval) : outcome pyval :=
  match payload_data with
  | PDict items => Return (PDict (setitem "generationConfig" config items))
  | _ => Raise TypeError
  end.

(** [get_gemini_response(query, history, modifier)]: a missing key is
    reported by an error string. *)
Definition get_gemini_response (net : network) (env_key : option string)
    (query : string) (history : list pyval) (modifier : string) : outcome string :=
  match env_key with
  | None => Return "Error: API key not found. Set GEMINI_API_KEY."
  | Some api_key =>
      if String.eqb api_key "" then
        Return "Error: API key not found. Set GEMINI_API_KEY."
      else
        payload_data <- snd (_format_gemini_payload query history modifier) ;;
        payload_data <- with_generation_config generation_config payload_data ;;
        Return (_parse_gemini_response
                  (_call_gemini_api net url api_key payload_data))
  end.

Definition base_modifier : string :=
  "You are a helpful AI assistant. Provide clear and concise responses.".

(** The history update of the regular chat branch of [main]. *)
Definition update_history (history : list pyval) (query response : string)
    : list pyval :=
  if negb (startswith response "Error:") && negb (startswith response "Warning:")
  then Shared.store_interaction history query (PStr response)
  else history.

(** One pass of the loop of [main] for a query that is not a command, up
    to the update of [history]. *)
Definition chat_turn (net : network) (env_key : option string)
    (history : list pyval) (query : string) : outcome (list pyval) :=
  response <- get_gemini_response net env_key query history base_modifier ;;
  Return (update_history history query response).

End WithRuntime.

End EspeakPiper1.

(** ** src/.old/code.py *)
Module OldCode.

(** [/save_hist <file>]: what [json.dump(history, f, indent=2)] writes. *)
Definition save_history (J : JsonFile) (history : list pyval) : file J :=
  json_dump J (PList history).

(** The test guarding the assignment to [history] in [/load_hist]. *)
Definition valid_loaded (loaded_history : pyval) : bool :=
  match loaded_history with
  | PList items =>
      forallb (fun item =>
                 match item with
                 | PList [x; y] => isinstance_str x && isinstance_str y
                 | _ => false
                 end) items
  | _ => false
  end.

(** [/load_hist <file>] on a file that exists: the history afterwards. *)
Definition load_history (J : JsonFile) (history : list pyval) (f : file J)
    : list pyval :=
  match json_load J f with
  | Return (PList items) =>
      if valid_loaded (PList items)
      then slice_last Shared.MAX_HISTORY items
      else history
  | _ => history
  end.

(** The history update of the regular chat branch of [main], for the
    response [get_gemini_response] returned (a string in this script). *)
Definition update_history (history : list pyval) (query response : string)
    : list pyval :=
  if negb (startswith response "Error:") && negb (startswith response "Warning:") then
    if negb (String.eqb response "")
    then Shared.store_interaction history query (PStr response)
    else history
  else history.

Section WithRuntime.
Context (rt : Runtime).

(** The checks that follow the content extraction in
    [_parse_gemini_response], and the code cleaning. *)
Definition finish (candidate finish_reason : pyval) (text : string)
    : outcome string :=
  let has_text := negb (String.eqb text "") in
  let fallback :=
    if negb has_text && eq_str finish_reason "STOP" then
      "Warning: Received response with no content (finish reason: STOP)."
    else if negb has_text && negb (eq_str finish_reason "STOP") then
      "Error: Failed to extract text content from candidate. Finish Reason: "
        ++ str rt finish_reason ++ ". Candidate: " ++ json_dumps rt candidate
    else Shared.clean_fences text in
  if eq_str finish_reason "STOP" then
    if negb has_text
    then Return "Warning: Received response with no content (finish reason: STOP)."
    else Return fallback
  else if eq_str finish_reason "MAX_TOKENS" then
    if has_text then
      Return ("Warning: MAX_TOKENS limit reached. Output may be incomplete." ++ nl
                ++ "---" ++ nl ++ text)
    else
      Return ("Error: Candidate finished due to maximum token limit ("
                ++ str rt finish_reason ++ "). No partial content extracted.")
  else if truthy finish_reason
          && negb (eq_str finish_reason "FINISH_REASON_UNSPECIFIED") then
    if has_text then
      Return ("Warning: Unexpected finish reason (" ++ str rt finish_reason
                ++ "). Output may be incomplete." ++ nl ++ "---" ++ nl ++ text)
    else
      safety_ratings <- get candidate "safetyRatings" ;;
      let ratings_str :=
        if truthy safety_ratings
        then " Safety Ratings: " ++ json_dumps rt safety_ratings
        else "" in
      Return ("Error: Candidate finished unexpectedly. Reason: "
                ++ str rt finish_reason ++ ". No content extracted." ++ ratings_str)
  else Return fallback.

(** The [try] block of [_parse_gemini_response], from the decoded body
    on.  The content extraction is the one of
    gemini.espeak_and_piper1.py, line for line. *)
Definition parse_body (response_data : pyval) : outcome string :=
  api_error <- get response_data "error" ;;
  if truthy api_error then
    message <- get_default api_error "message" (PStr "Unknown API error") ;;
    code <- get_default api_error "code" (PStr "N/A") ;;
    Return ("Error from API: " ++ str rt message
              ++ " (Code: " ++ str rt code ++ ")")
  else
    candidates <- get response_data "candidates" ;;
    if negb (truthy candidates) then
      feedback <- get response_data "promptFeedback" ;;
      let feedback_info :=
        if truthy feedback then " Prompt Feedback: " ++ json_dumps rt feedback
        else "" in
      Return ("Error: No candidates found in response." ++ feedback_info
                ++ " Response JSON: " ++ json_dumps rt response_data)
    else
      candidate <- getitem0 candidates ;;
      if negb (truthy candidate) then
        Return ("Error: Received empty or invalid candidate list. Response JSON: "
                  ++ json_dumps rt response_data)
      else
        finish_reason <- get candidate "finishReason" ;;
        content <- get candidate "content" ;;
        text <- EspeakPiper1.extract_text content ;;
        finish candidate finish_reason text.

(** [_parse_gemini_response(response)] *)
Definition _parse_gemini_response (response : response + string) : string :=
  match response with
  | inr s => s
  | inl r =>
      try_except (response_data <- response_json r ;; parse_body response_data)
        (fun e =>
           let response_data_str :=
             match json r with
             | inl response_data => take 500 (str rt response_data)
             | inr _ => "N/A"
             end in
           match e with
           | JSONDecodeError _ =>
               "Error decoding API response JSON: " ++ str_exn rt e
                 ++ ". Response text: " ++ take 500 (text r) ++ "..."
           | IndexError =>
               "Error processing API response: Invalid candidate structure. Response JSON slice: "
                 ++ response_data_str
           | _ =>
               "Error processing API response structure: " ++ str_exn rt e
                 ++ ". Response JSON slice: " ++ response_data_str
           end)
  end.

(** [_call_gemini_api]: [timeout=240]. *)
Definition _call_gemini_api (net : network) (url api_key : string) (data : pyval)
    : response + string :=
  Shared.call_gemini_api rt 240 net url api_key data.

End WithRuntime.

End OldCode.

(** ** src/gemini.espeak.py *)
Module Espeak.

Section WithRuntime.
Context (rt : Runtime).

Definition url : string :=
  "https://generativelanguage.googleapis.com/v1beta/models/gemini-2.0-flash-exp:generateContent".

(** [[f"Human: {q}\\nAI: {a}" for q, a in conversation_history]] *)
Definition history_lines (conversation_history : list pyval) : outcome (list string) :=
  map_outcome
    (fun item =>
       qa <- unpack2 item ;;
       Return ("Human: " ++ str rt (fst qa) ++ nl ++ "AI: " ++ str rt (snd qa)))
    conversation_history.

(** The arguments [get_gemini_response] passes to [requests.post]: no
    [timeout] keyword. *)
Definition api_request (api_key full_query : string) : request :=
  mkRequest (url ++ "?key=" ++ api_key)
    (PDict [("contents", PList [PDict [("parts", PList [PDict [("text", PStr full_query)]])]])])
    None.

(** [get_gemini_response(query, conversation_history, response_modifier)] *)
Definition get_gemini_response (net : network) (env_key : option string)
    (query : string) (conversation_history : list pyval)
    (response_modifier : string) : outcome pyval :=
  match env_key with
  | None =>
      Raise (ValueError "API key not found. Please set the GEMINI_API_KEY environment variable.")
  | Some api_key =>
      if String.eqb api_key "" then
        Raise (ValueError "API key not found. Please set the GEMINI_API_KEY environment variable.")
      else
        ls <- history_lines conversation_history ;;
        let history_text := join nl ls in
        let full_query :=
          response_modifier ++ nl ++ nl ++ "Conversation history:" ++ nl
            ++ history_text ++ nl ++ nl ++ "Current query: " ++ query in
        response <- net (api_request api_key full_query) ;;
        if (status_code response =? 200)%Z then
          body <- response_json response ;;
          candidates <- getitem body "candidates" ;;
          candidate <- getitem0 candidates ;;
          content <- getitem candidate "content" ;;
          parts <- getitem content "parts" ;;
          part <- getitem0 parts ;;
          getitem part "text"
        else
          Return (PStr ("Error: " ++ str_int (status_code response) ++ " - "
                          ++ text response))
  end.

(** One pass of the [while True] body of [main] for an input that is
    neither [exit] nor a [modifier:] command, up to the update of
    [conversation_history].  The loop has no [except] clause. *)
Definition chat_turn (net : network) (env_key : option string)
    (response_modifier : string) (conversation_history : list pyval)
    (user_query : string) : outcome (list pyval) :=
  response <- get_gemini_response net env_key user_query conversation_history
                response_modifier ;;
  Return (conversation_history ++ [PList [PStr user_query; response]])%list.

End WithRuntime.

End Espeak.

(** ** src/gen_ai_console/gemini_handler.py *)
Module GeminiHandler.

Section WithRuntime.
Context (rt : Runtime).

(** The arguments [generate_text] passes to [requests.post]. *)
Definition api_request (api_key model_name prompt : string) (history : list pyval)
    : request :=
  let contents := (history ++ [content_entry "user" (PStr prompt)])%list in
  mkRequest
    ("https://generativelanguage.googleapis.com/v1beta/models/" ++ model_name
       ++ ":generateContent?key=" ++ api_key)
    (PDict [("contents", PList contents);
            ("generationConfig",
             PDict [("temperature", PFloat 6 (-1)); ("maxOutputTokens", PInt 2048)])])
    (Some 90%Z).

(** [candidates and candidates[0].get('content', {}).get('parts')],
    as the truth value the [if] tests. *)
Definition has_parts (candidates : pyval) : outcome bool :=
  if truthy candidates then
    candidate <- getitem0 candidates ;;
    content <- get_default candidate "content" (PDict []) ;;
    parts <- get content "parts" ;;
    Return (truthy parts)
  else Return false.

(** What the [try] block does with the decoded body. *)
Definition read_body (response_data : pyval) : outcome string :=
  candidates <- get response_data "candidates" ;;
  ok <- has_parts candidates ;;
  if ok : bool then
    candidate <- getitem0 candidates ;;
    content <- getitem candidate "content" ;;
    text_parts <- getitem content "parts" ;;
    items <- iter text_parts ;;
    joined <- join_part_texts items ;;
    let full_text := strip joined in
    if negb (String.eqb full_text "") then Return full_text
    else Return "Error: Received an empty response from the model."
  else
    prompt_feedback <- get response_data "promptFeedback" ;;
    blocked <- (if truthy prompt_feedback
                then reason <- get prompt_feedback "blockReason" ;;
                     Return (truthy reason)
                else Return false) ;;
    if blocked : bool then
      reason <- getitem prompt_feedback "blockReason" ;;
      Return ("Error: Your request was blocked by the API. Reason: " ++ str rt reason)
    else Return "Error: Could not parse the response from the model.".

(** The [try] block of [generate_text]. *)
Definition try_block (net : network) (api_key model_name prompt : string)
    (history : list pyval) : outcome string :=
  response <- net (api_request api_key model_name prompt history) ;;
  _ <- raise_for_status rt response ;;
  response_data <- response_json response ;;
  read_body response_data.

(** The three [except] clauses, in order. *)
Definition handler (e : exn) : string :=
  match e with
  | HTTPError _ resp =>
      "Error: API request failed (Status " ++ str_int (status_code resp) ++ ")."
  | _ =>
      if is_RequestException rt e
      then "Error: Could not connect to the API. (" ++ str_exn rt e ++ ")"
      else "Error: An unexpected error occurred. (" ++ str_exn rt e ++ ")"
  end.

(** [generate_text(api_key, model_name, prompt, history)]; [history] is
    a list ([None], the default, behaves as the empty list). *)
Definition generate_text (net : network) (api_key model_name prompt : string)
    (history : list pyval) : outcome string :=
  match try_block net api_key model_name prompt history with
  | Return s => Return s
  | Raise e => Return (handler e)
  end.

End WithRuntime.

End GeminiHandler.

(** ** src/gen_ai_console/app.py *)
Module App.

Section WithRuntime.
Context (rt : Runtime).

(** The history update of [main] for the text [generate_text] returned. *)
Definition update_history (conversation_history : list pyval)
    (user_input response_text : string) : list pyval :=
  if negb (startswith response_text "Error:") then
    let appended :=
      (conversation_history
         ++ [content_entry "user" (PStr user_input);
             content_entry "model" (PStr response_text)])%list in
    if (10 <? List.length appended)%nat then slice_last 10 appended else appended
  else conversation_history.

(** The state after one pass of the [while True] loop of [main] on the
    line [raw_input]: the history and whether the loop goes on.
    [api_key] and [model_name] are the values of [config]. *)
Definition main_step (net : network) (api_key model_name : string)
    (conversation_history : list pyval) (raw_input : string)
    : list pyval * bool :=
  let user_input := strip raw_input in
  if String.eqb (lower user_input) "exit" then (conversation_history, false)
  else if String.eqb user_input "" then (conversation_history, true)
  else
    match GeminiHandler.generate_text rt net api_key model_name user_input
            conversation_history with
    | Return response_text =>
        (update_history conversation_history user_input response_text, true)
    | Raise _ => (conversation_history, false)
    end.

End WithRuntime.

End App.

(** ** src/gen_ai_console/tts_player.py *)
Module TtsPlayer.

(** The class of the first [re.sub] of [TTSEngine.clean_text]. *)
Definition removed_char (c : ascii) : bool :=
  char_in ("*_`#~" ++ dquote ++ "'!${}()<>|;&") c.

(** [TTSEngine.clean_text(text)] *)
Definition clean_text (text : string) : string :=
  strip (sub_spaces (remove_chars removed_char text)).

(** The argument vector [ESpeakTTS.speak] runs, or [None] when it
    returns without speaking; [available] is what [is_available] gives. *)
Definition espeak_command (available : bool) (voice speed pitch text : string)
    : option (list string) :=
  if negb available then None
  else
    let cleaned_text := clean_text text in
    if String.eqb cleaned_text "" then None
    else Some ["espeak-ng"; "-v"; voice; "-s"; speed; "-p"; pitch; cleaned_text].

End TtsPlayer.

(** ** Vocabulary of the properties *)
Module Spec.

(** A conversation turn of well-formed history and the value the
    scripts store for it: the two-element list [[query, response]]. *)
Definition turn : Type := (string * string)%type.

Definition pair_value (p : pyval * pyval) : pyval := PList [fst p; snd p].

Definition turn_value (t : turn) : pyval := PList [PStr (fst t); PStr (snd t)].

Definition history_of (H : list turn) : list pyval := map turn_value H.

(** The user entry and the model entry of each turn, in order. *)
Definition turn_entries (H : list turn) : list pyval :=
  flat_map (fun t => [content_entry "user" (PStr (fst t));
                      content_entry "model" (PStr (snd t))]) H.

(** [sub] occurs in [s]. *)
Definition occurs_in (sub s : string) : Prop :=
  exists pre post : string, s = pre ++ sub ++ post.

(** For a history entry of the right shape but any content: whether
    both components are text, the entries it yields, and the warning
    printed when it is skipped. *)
Definition is_text_pair (p : pyval * pyval) : bool :=
  isinstance_str (fst p) && isinstance_str (snd p).

Definition kept_entries (pairs : list (pyval * pyval)) : list pyval :=
  flat_map (fun p => if is_text_pair p
                     then [content_entry "user" (fst p);
                           content_entry "model" (snd p)]
                     else []) pairs.

Definition skip_warning (p : pyval * pyval) : string :=
  "Warning: Skipping invalid history entry: ("
    ++ str_type (fst p) ++ ", " ++ str_type (snd p) ++ ")".

Definition skip_warnings (pairs : list (pyval * pyval)) : list string :=
  map skip_warning (filter (fun p => negb (is_text_pair p)) pairs).

(** The payload [{"contents": entries}]. *)
Definition payload (entries : list pyval) : pyval :=
  PDict [("contents", PList entries)].

(** Appending the interactions [appended], oldest first. *)
Definition store_all (store : list pyval -> string -> pyval -> list pyval)
    (history : list pyval) (appended : list (string * pyval)) : list pyval :=
  fold_left (fun h qr => store h (fst qr) (snd qr)) appended history.

(** [s] is the text of the model in [body]: the trimmed, non-empty
    concatenation of the text of the parts of the first candidate. *)
Definition model_text (body : pyval) (s : string) : Prop :=
  exists candidates candidate content parts items joined,
    get body "candidates" = Return candidates
    /\ getitem0 candidates = Return candidate
    /\ getitem candidate "content" = Return content
    /\ getitem content "parts" = Return parts
    /\ truthy parts = true
    /\ iter parts = Return items
    /\ join_part_texts items = Return joined
    /\ s = strip joined
    /\ s <> "".

(** A part that holds text: [{"text": s}]. *)
Definition text_part (s : string) : pyval := PDict [("text", PStr s)].

(** [items.get(k)] on the fields of a JSON object. *)
Definition field (k : string) (items : list (string * pyval)) : pyval :=
  match lookup k items with
  | Some v => v
  | None => PNone
  end.

(** The prompt feedback of a body names [reason] as a block reason
    other than the unspecified one. *)
Definition blocked_for (items : list (string * pyval)) (reason : pyval) : Prop :=
  exists feedback,
    field "promptFeedback" items = PDict feedback
    /\ field "blockReason" feedback = reason
    /\ truthy reason = true
    /\ eq_str reason "BLOCK_REASON_UNSPECIFIED" = false.

(** The body has no prompt feedback, or one (an object) without a block
    reason other than the unspecified one. *)
Definition not_blocked (items : list (string * pyval)) : Prop :=
  truthy (field "promptFeedback" items) = false
  \/ exists feedback,
       field "promptFeedback" items = PDict feedback
       /\ (truthy (field "blockReason" feedback) = false
           \/ eq_str (field "blockReason" feedback) "BLOCK_REASON_UNSPECIFIED" = true).

(** [items.get(k, default)] on the fields of a JSON object. *)
Definition field_or (k : string) (default : pyval) (items : list (string * pyval))
    : pyval :=
  match lookup k items with
  | Some v => v
  | None => default
  end.

(** A history entry of the shape [/load] accepts: a two-element list. *)
Definition is_pair (v : pyval) : bool :=
  match v with
  | PList [_; _] => true
  | _ => false
  end.

(** A status that [raise_for_status] turns into an [HTTPError]. *)
Definition http_error_status (r : response) : Prop :=
  (400 <= status_code r < 600)%Z.

(** The history after the loop of [main] of gemini.espeak_and_piper.py
    has read the lines [steps], each in its own world, from [history];
    the loop stops at the first pass that ends it. *)
Fixpoint run_main (rt : Runtime) (J : JsonFile)
    (steps : list (EspeakPiper.world J * string)) (history : list pyval)
    : list pyval :=
  match steps with
  | [] => history
  | (w, line) :: rest =>
      match EspeakPiper.main_step rt J w history line with
      | (history', true, _) => run_main rt J rest history'
      | (history', false, _) => history'
      end
  end.

(** A non-empty string without whitespace at either end, such as a
    file name typed after a command. *)
Definition no_outer_space (s : string) : Prop :=
  lstrip s = s /\ rstrip s = s /\ s <> "".

(** The history after the loop of [main] of gen_ai_console/app.py has
    read the lines [steps], each with its own network behaviour, from
    [history]; the loop stops at the first pass that ends it. *)
Fixpoint run_app (rt : Runtime) (api_key model_name : string)
    (steps : list (network * string)) (history : list pyval) : list pyval :=
  match steps with
  | [] => history
  | (net, line) :: rest =>
      match App.main_step rt net api_key model_name history line with
      | (history', true) => run_app rt api_key model_name rest history'
      | (history', false) => history'
      end
  end.

(** What can go wrong with a request of [generate_text]: [requests.post]
    raises, the status is an HTTP error, the body does not decode, or it
    decodes to an object without candidates. *)
Definition exchange_fails (net : network) (req : request) : Prop :=
  (exists e, net req = Raise e)
  \/ (exists r, net req = Return r
               /\ (http_error_status r
                   \/ (exists msg, json r = inr msg)
                   \/ (exists items, json r = inl (PDict items)
                                     /\ truthy (field "candidates" items) = false))).

(** The invariant of the history of the app: the entries of at most
    five turns, none of whose responses is an error string. *)
Definition app_history (history : list pyval) : Prop :=
  exists turns : list turn,
    history = turn_entries turns
    /\ List.length turns <= 5
    /\ Forall (fun t => startswith (snd t) "Error:" = false) turns.

(** Whether a string starts with a whitespace character. *)
Definition starts_with_space (s : string) : bool :=
  match s with
  | EmptyString => false
  | String c _ => isspace c
  end.

(** Every whitespace character of the string is a plain space, and no
    two of them follow each other. *)
Fixpoint single_spaced (s : string) : bool :=
  match s with
  | EmptyString => true
  | String c s' =>
      (if isspace c then Ascii.eqb c " " && negb (starts_with_space s') else true)
      && single_spaced s'
  end.

End Spec.

(** ** A concrete runtime and network, for closed instances *)
Module Demo.

Definition rt : Runtime :=
  mkRuntime (fun _ => "<value>") (fun _ => "<json>") (fun _ => "<exception>")
    (fun _ => "<http error>") true.

(** The encoding that keeps the value as it is. *)
Definition J : JsonFile := mkJsonFile pyval (fun v => v) (fun f => Return f).

(** A response with status 200 whose body decodes to [body]. *)
Definition ok_response (body : pyval) : response :=
  mkResponse 200 "<body>" (inl body).

(** A body with one candidate: its finish reason and one text part. *)
Definition candidate_body (finish_reason txt : string) : list (string * pyval) :=
  [("candidates",
    PList [PDict [("content", PDict [("parts", PList [PDict [("text", PStr txt)]]);
                                     ("role", PStr "model")]);
                  ("finishReason", PStr finish_reason)]])].

(** A body without candidates whose prompt feedback gives a block reason. *)
Definition blocked_body (reason : string) : list (string * pyval) :=
  [("candidates", PList []);
   ("promptFeedback", PDict [("blockReason", PStr reason)])].

(** Networks that answer every request alike. *)
Definition net_raising (e : exn) : network := fun _ => Raise e.
Definition net_answering (r : response) : network := fun _ => Return r.

End Demo.

Import Spec.

(** ** Facts about the built-ins *)

Lemma string_app_assoc (a b c : string) : (a ++ b) ++ c = a ++ b ++ c.
Proof.
  induction a as [|ch a IH]; simpl; [reflexivity | now rewrite IH].
Qed.

Lemma string_app_nil_r (a : string) : a ++ "" = a.
Proof.
  induction a as [|ch a IH]; simpl; [reflexivity | now rewrite IH].
Qed.

Lemma occurs_in_prefix (s post : string) : occurs_in s (s ++ post).
Proof.
  exists "", post; reflexivity.
Qed.

Lemma occurs_in_self (s : string) : occurs_in s s.
Proof.
  exists "", ""; simpl; now rewrite string_app_nil_r.
Qed.

Lemma occurs_in_empty (s : string) : occurs_in "" s.
Proof.
  exists "", s; reflexivity.
Qed.

Lemma occurs_in_app_r (sub pre s : string) :
  occurs_in sub s -> occurs_in sub (pre ++ s).
Proof.
  intros [a [b ->]]. exists (pre ++ a), b. now rewrite string_app_assoc.
Qed.

(** ** The payload builders *)

Section PayloadBuilder.
Context (rt : Runtime).

Lemma unpack2_pair (p : pyval * pyval) : unpack2 (pair_value p) = Return p.
Proof. destruct p; reflexivity. Qed.

(** The loop over a history of two-element lists: nothing is raised,
    text pairs are emitted, the others are reported. *)
Lemma history_entries_pairs (pairs : list (pyval * pyval)) :
  Shared.history_entries (map pair_value pairs)
  = (skip_warnings pairs, Return (kept_entries pairs)).
Proof.
  induction pairs as [|p pairs IH].
  - reflexivity.
  - cbn [map Shared.history_entries]. rewrite unpack2_pair, IH.
    destruct p as [q a]. unfold skip_warnings, kept_entries, is_text_pair.
    cbn [filter flat_map fst snd].
    destruct (isinstance_str q && isinstance_str a); reflexivity.
Qed.

Lemma history_lines_pairs (pairs : list (pyval * pyval)) :
  exists ls, Shared.history_lines rt (map pair_value pairs) = Return ls.
Proof.
  induction pairs as [|p pairs [ls IH]].
  - now exists [].
  - unfold Shared.history_lines in *. cbn [map map_outcome].
    rewrite unpack2_pair. cbn [bind]. rewrite IH. cbn [bind]. eauto.
Qed.

Lemma turns_as_pairs (H : list turn) :
  history_of H = map pair_value (map (fun t => (PStr (fst t), PStr (snd t))) H).
Proof.
  unfold history_of. rewrite map_map. reflexivity.
Qed.

Lemma kept_entries_turns (H : list turn) :
  kept_entries (map (fun t => (PStr (fst t), PStr (snd t))) H) = turn_entries H.
Proof.
  induction H as [|t H IH]; [reflexivity|].
  unfold kept_entries, turn_entries in *. cbn [map flat_map]. now rewrite IH.
Qed.

Lemma skip_warnings_turns (H : list turn) :
  skip_warnings (map (fun t => (PStr (fst t), PStr (snd t))) H) = [].
Proof.
  induction H as [|t H IH]; [reflexivity|].
  unfold skip_warnings in *. cbn [map filter]. exact IH.
Qed.

Lemma length_turn_entries (H : list turn) :
  List.length (turn_entries H) = 2 * List.length H.
Proof.
  induction H as [|t H IH]; [reflexivity|].
  unfold turn_entries in *. cbn [flat_map List.length app]. rewrite IH. lia.
Qed.

(** What both builders return on a history of two-element lists, with
    the text of the final entry left to the caller. *)
Lemma espeak_piper_payload_pairs (query : string) (pairs : list (pyval * pyval))
    (modifier : string) :
  exists final,
    EspeakPiper._format_gemini_payload rt query (map pair_value pairs) modifier
    = (skip_warnings pairs,
       Return (payload (kept_entries pairs ++ [content_entry "user" (PStr final)])))
    /\ occurs_in query final /\ occurs_in modifier final.
Proof.
  unfold EspeakPiper._format_gemini_payload. rewrite history_entries_pairs.
  cbn [bind]. destruct pairs as [|p pairs].
  - cbn [map]. cbn [bind]. destruct (String.eqb_spec modifier "") as [->|_].
    + eexists; split; [reflexivity|]. split; [apply occurs_in_self | apply occurs_in_empty].
    + eexists; split; [reflexivity|]. split.
      * repeat apply occurs_in_app_r. apply occurs_in_self.
      * apply occurs_in_prefix.
  - destruct (history_lines_pairs (p :: pairs)) as [ls Hls].
    cbn [map] in *. rewrite Hls. cbn [bind].
    eexists; split; [reflexivity|]. split.
    + repeat apply occurs_in_app_r. apply occurs_in_self.
    + apply occurs_in_prefix.
Qed.

Lemma espeak_piper1_payload_pairs (query : string) (pairs : list (pyval * pyval))
    (modifier : string) :
  exists final,
    EspeakPiper1._format_gemini_payload rt query (map pair_value pairs) modifier
    = (skip_warnings pairs,
       Return (payload (kept_entries pairs ++ [content_entry "user" (PStr final)])))
    /\ occurs_in query final /\ occurs_in modifier final.
Proof.
  unfold EspeakPiper1._format_gemini_payload. rewrite history_entries_pairs.
  cbn [bind]. destruct pairs as [|p pairs].
  - cbn [map]. cbn [bind]. destruct (String.eqb_spec modifier "") as [->|_].
    + eexists; split; [reflexivity|]. split; [apply occurs_in_self | apply occurs_in_empty].
    + eexists; split; [reflexivity|]. split.
      * repeat apply occurs_in_app_r. apply occurs_in_self.
      * apply occurs_in_prefix.
  - destruct (history_lines_pairs (p :: pairs)) as [ls Hls].
    cbn [map] in *. rewrite Hls. cbn [bind].
    eexists; split; [reflexivity|]. split.
    + repeat apply occurs_in_app_r. apply occurs_in_self.
    + apply occurs_in_prefix.
Qed.

End PayloadBuilder.

(** C1.  For every history [H] of turns (pairs of text), every query
    [q] and every modifier [m], [_format_gemini_payload] (in
    gemini.espeak_and_piper.py and in gemini.espeak_and_piper1.py) prints
    no warning and returns a payload whose contents are, for each turn
    in order, a user entry with its query then a model entry with its
    response, followed by one user entry: [2 * |H| + 1] entries.  The
    text of the last entry contains [q] and contains [m] (which says
    nothing when [m] is empty).  No bound on [|H|] is needed. *)
Theorem payload_two_entries_per_turn_then_query
    (rt : Runtime) (H : list turn) (q m : string) :
  (exists final,
     EspeakPiper._format_gemini_payload rt q (history_of H) m
     = ([], Return (payload (turn_entries H ++ [content_entry "user" (PStr final)])))
     /\ List.length (turn_entries H ++ [content_entry "user" (PStr final)])
        = 2 * List.length H + 1
     /\ occurs_in q final /\ occurs_in m final)
  /\
  (exists final,
     EspeakPiper1._format_gemini_payload rt q (history_of H) m
     = ([], Return (payload (turn_entries H ++ [content_entry "user" (PStr final)])))
     /\ List.length (turn_entries H ++ [content_entry "user" (PStr final)])
        = 2 * List.length H + 1
     /\ occurs_in q final /\ occurs_in m final).
Proof.
  rewrite turns_as_pairs.
  split.
  - destruct (espeak_piper_payload_pairs rt q
                (map (fun t => (PStr (fst t), PStr (snd t))) H) m)
      as [final [Heq [Hq Hm]]].
    rewrite kept_entries_turns, skip_warnings_turns in Heq.
    exists final. repeat split; try assumption.
    rewrite length_app, length_turn_entries. simpl. lia.
  - destruct (espeak_piper1_payload_pairs rt q
                (map (fun t => (PStr (fst t), PStr (snd t))) H) m)
      as [final [Heq [Hq Hm]]].
    rewrite kept_entries_turns, skip_warnings_turns in Heq.
    exists final. repeat split; try assumption.
    rewrite length_app, length_turn_entries. simpl. lia.
Qed.

(** C8, as amended.  For every history whose entries are two-element
    lists, whatever they hold, [_format_gemini_payload] (both scripts)
    completes: each entry whose query or response is not text is left
    out of the contents and reported by a warning, in order, and the
    other entries yield their user and model entries, in order, before
    the final user entry. *)
Theorem payload_skips_entries_that_are_not_text
    (rt : Runtime) (pairs : list (pyval * pyval)) (q m : string) :
  (exists final,
     EspeakPiper._format_gemini_payload rt q (map pair_value pairs) m
     = (skip_warnings pairs,
        Return (payload (kept_entries pairs ++ [content_entry "user" (PStr final)]))))
  /\
  (exists final,
     EspeakPiper1._format_gemini_payload rt q (map pair_value pairs) m
     = (skip_warnings pairs,
        Return (payload (kept_entries pairs ++ [content_entry "user" (PStr final)])))).
Proof.
  split.
  - destruct (espeak_piper_payload_pairs rt q pairs m) as [final [Heq _]]. eauto.
  - destruct (espeak_piper1_payload_pairs rt q pairs m) as [final [Heq _]]. eauto.
Qed.

(** C8, counterexample.  An entry of the wrong shape is fatal: on the
    history [[["a", "b", "c"]]] the unpacking [for q, a in history]
    raises [ValueError] before any check, and no payload is built. *)
Lemma payload_entry_of_wrong_shape_raises :
  ~ (exists warnings p,
       EspeakPiper._format_gemini_payload Demo.rt "q"
         [PList [PStr "a"; PStr "b"; PStr "c"]] "m"
       = (warnings, Return p)).
Proof.
  intros [warnings [p H]]. cbv in H. discriminate H.
Qed.

(** ** The capped history *)

Lemma slice_last_at_most {A : Type} (n : nat) (l : list A) :
  List.length (slice_last (S n) l) <= S n.
Proof.
  unfold slice_last. rewrite length_skipn. lia.
Qed.

Lemma slice_last_evicts_oldest {A : Type} (n : nat) (l : list A) (x : A) :
  List.length l = S n -> slice_last (S n) (l ++ [x]) = (tl l ++ [x])%list.
Proof.
  intros Hlen. destruct l as [|a l]; [discriminate|].
  unfold slice_last. rewrite length_app. cbn [List.length] in *.
  replace (S (List.length l) + 1 - S n) with 1 by lia.
  reflexivity.
Qed.

Lemma slice_last_below_cap {A : Type} (n : nat) (l : list A) :
  List.length l <= n -> slice_last n l = l.
Proof.
  intros Hlen. destruct n as [|n]; [reflexivity|].
  unfold slice_last. replace (List.length l - S n) with 0 by lia. reflexivity.
Qed.

Lemma store_all_within_cap (store : list pyval -> string -> pyval -> list pyval)
    (cap : nat) :
  (forall h q r, List.length (store h q r) <= cap) ->
  forall appended history,
    List.length history <= cap ->
    List.length (store_all store history appended) <= cap.
Proof.
  intros Hstore appended. unfold store_all.
  induction appended as [|qr appended IH]; intros history Hlen.
  - exact Hlen.
  - cbn [fold_left]. apply IH, Hstore.
Qed.

(** C6.  With the cap of 10 interactions ([MAX_HISTORY], or the literal
    of gemini.espeak_and_piper.py): storing an interaction in a history
    that holds exactly the cap drops the oldest entry and keeps the
    others in order, the new one last; and from a history within the
    cap, any sequence of stored interactions leaves a history within the
    cap, as does the guarded update of code.py. *)
Theorem history_evicts_oldest_and_stays_capped
    (history : list pyval) (q : string) (r : pyval)
    (appended : list (string * pyval)) :
  (List.length history = Shared.MAX_HISTORY ->
   Shared.store_interaction history q r = (tl history ++ [PList [PStr q; r]])%list
   /\ EspeakPiper.store_interaction history q r
      = (tl history ++ [PList [PStr q; r]])%list)
  /\
  (List.length history <= Shared.MAX_HISTORY ->
   List.length (store_all Shared.store_interaction history appended)
     <= Shared.MAX_HISTORY
   /\ List.length (store_all EspeakPiper.store_interaction history appended)
     <= Shared.MAX_HISTORY
   /\ forall response,
        List.length (OldCode.update_history history q response)
          <= Shared.MAX_HISTORY).
Proof.
  split.
  - intros Hlen. split; apply slice_last_evicts_oldest; exact Hlen.
  - intros Hlen. repeat split.
    + apply store_all_within_cap; [|exact Hlen].
      intros h q' r'; apply slice_last_at_most.
    + apply store_all_within_cap; [|exact Hlen].
      intros h q' r'; apply slice_last_at_most.
    + intros response. unfold OldCode.update_history.
      destruct (_ && _); [|exact Hlen].
      destruct (negb _); [apply slice_last_at_most | exact Hlen].
Qed.

Lemma history_evicts_oldest_and_stays_capped_witness :
  Shared.store_interaction
    (map (fun n => PInt (Z.of_nat n)) (seq 0 10)) "q" (PStr "r")
  = (map (fun n => PInt (Z.of_nat n)) (seq 1 9) ++ [PList [PStr "q"; PStr "r"]])%list
  /\ List.length (store_all EspeakPiper.store_interaction
                    (map (fun n => PInt (Z.of_nat n)) (seq 0 10))
                    [("a", PStr "b"); ("c", PStr "d")]) <= 10.
Proof.
  split.
  - apply (proj1 (history_evicts_oldest_and_stays_capped
                    (map (fun n => PInt (Z.of_nat n)) (seq 0 10)) "q" (PStr "r") [])).
    reflexivity.
  - apply (proj2 (history_evicts_oldest_and_stays_capped
                    (map (fun n => PInt (Z.of_nat n)) (seq 0 10)) "q" (PStr "r")
                    [("a", PStr "b"); ("c", PStr "d")])).
    unfold Shared.MAX_HISTORY. simpl. lia.
Defined.

(** ** Fence removal *)

(** C5.  The code-cleaning block of [_parse_gemini_response] (the same in
    gemini.espeak_and_piper1.py and code.py) turns the text made of the
    lines [```], [hello], [```] into [hello], and the text made of
    [```python], [print(1)], [```] into [print(1)], also when that text
    comes out of a response that finished with STOP; a text that does not
    both start and end with three backticks is returned as it is. *)
Theorem fences_stripped_only_at_both_ends (rt : Runtime) :
  Shared.clean_fences ("```" ++ nl ++ "hello" ++ nl ++ "```") = "hello"
  /\ Shared.clean_fences ("```python" ++ nl ++ "print(1)" ++ nl ++ "```") = "print(1)"
  /\ EspeakPiper1._parse_gemini_response rt
       (inl (Demo.ok_response
               (PDict (Demo.candidate_body "STOP"
                         ("```" ++ nl ++ "hello" ++ nl ++ "```")))))
     = "hello"
  /\ EspeakPiper1._parse_gemini_response rt
       (inl (Demo.ok_response
               (PDict (Demo.candidate_body "STOP"
                         ("```python" ++ nl ++ "print(1)" ++ nl ++ "```")))))
     = "print(1)"
  /\ (forall text : string,
        startswith text "```" = false \/ endswith text "```" = false ->
        Shared.clean_fences text = text).
Proof.
  repeat split; try (vm_compute; reflexivity).
  intros text [H|H]; unfold Shared.clean_fences; rewrite H;
    [reflexivity | now rewrite andb_false_r].
Qed.

Lemma fences_stripped_only_at_both_ends_witness :
  Shared.clean_fences ("see ```x``` above") = "see ```x``` above".
Proof.
  apply (proj2 (proj2 (proj2 (proj2 (fences_stripped_only_at_both_ends Demo.rt))))).
  left. reflexivity.
Defined.

(** ** Failed exchanges and the history *)

(** C7, the code at the failing input.  In gemini.espeak_and_piper.py a
    connection failure makes [_call_gemini_api] return the string
    [Error communicating with API: ...]; it does not begin with
    [Error:], so [main] stores the failed exchange in the history.  (In
    gemini.espeak.py [main] stores every response, the [Error: 404 - ...]
    of a failed request included.) *)
Theorem failed_exchange_is_stored :
  EspeakPiper.main_turn Demo.rt
    (Demo.net_raising (ConnectionError "connection refused")) (Some "key") [] "hi"
  = ([PList [PStr "hi"; PStr "Error communicating with API: connection refused"]],
     true)
  /\ Espeak.chat_turn Demo.rt
       (Demo.net_answering (mkResponse 404 "Not Found" (inr "not JSON")))
       (Some "key") "modifier" [] "hi"
     = Return [PList [PStr "hi"; PStr "Error: 404 - Not Found"]].
Proof. split; vm_compute; reflexivity. Qed.

(** ** The transport *)

Lemma raise_for_status_error (rt : Runtime) (r : response) :
  (400 <= status_code r < 600)%Z ->
  raise_for_status rt r = Raise (HTTPError (http_error_msg rt r) r).
Proof.
  intros [Hlo Hhi]. unfold raise_for_status.
  apply Z.leb_le in Hlo. apply Z.ltb_lt in Hhi. now rewrite Hlo, Hhi.
Qed.

Lemma raise_for_status_ok (rt : Runtime) (r : response) :
  ~ (400 <= status_code r < 600)%Z ->
  raise_for_status rt r = Return tt.
Proof.
  intros Hout. unfold raise_for_status.
  destruct (400 <=? status_code r)%Z eqn:Hlo;
    destruct (status_code r <? 600)%Z eqn:Hhi; try reflexivity.
  apply Z.leb_le in Hlo. apply Z.ltb_lt in Hhi. exfalso. apply Hout. lia.
Qed.

Lemma history_lines_espeak (rt : Runtime) (H : list turn) :
  exists ls, Espeak.history_lines rt (history_of H) = Return ls.
Proof.
  induction H as [|t H [ls IH]].
  - now exists [].
  - unfold Espeak.history_lines, history_of in *. cbn [map map_outcome].
    cbn [turn_value unpack2 iter bind]. rewrite IH. cbn [bind]. eauto.
Qed.

(** C2, as amended.  [_call_gemini_api] of gemini.espeak_and_piper.py
    passes [timeout=60] and returns an error string whenever
    [requests.post] raises a [requests] exception (timeout, connection
    failure, any other [RequestException]) or the status is an HTTP
    error; it returns the response otherwise, and lets an exception that
    is not a [RequestException] through.  [get_gemini_response] of
    gemini.espeak.py passes no timeout and has no handler: whatever
    [requests.post] raises propagates, and a status other than 200 comes
    back as an [Error: status - body] string. *)
Theorem transport_returns_request_errors
    (rt : Runtime) (net : network) (url api_key : string) (data : pyval)
    (q m : string) (H : list turn) :
  let req := EspeakPiper.api_request url api_key data in
  let call := EspeakPiper._call_gemini_api rt net url api_key data in
  req_timeout req = Some 60%Z
  /\ (forall e, net req = Raise e -> is_RequestException rt e = true ->
        exists s, call = Return (inr s))
  /\ (forall r, net req = Return r -> (400 <= status_code r < 600)%Z ->
        exists s, call = Return (inr s))
  /\ (forall r, net req = Return r -> ~ (400 <= status_code r < 600)%Z ->
        call = Return (inl r))
  /\ (forall e, net req = Raise e -> is_RequestException rt e = false ->
        call = Raise e)
  /\ (forall query, req_timeout (Espeak.api_request api_key query) = None)
  /\ (api_key <> "" ->
      forall e, (forall rq, net rq = Raise e) ->
        Espeak.get_gemini_response rt net (Some api_key) q (history_of H) m = Raise e)
  /\ (api_key <> "" ->
      forall r, (forall rq, net rq = Return r) -> status_code r <> 200%Z ->
        Espeak.get_gemini_response rt net (Some api_key) q (history_of H) m
        = Return (PStr ("Error: " ++ str_int (status_code r) ++ " - " ++ text r))).
Proof.
  intros req call. subst req call. unfold EspeakPiper._call_gemini_api.
  split; [reflexivity|].
  split.
  { intros e Hnet He. rewrite Hnet. cbn [bind].
    destruct e; cbn [is_RequestException] in *; try discriminate;
      try rewrite He; eauto. }
  split.
  { intros r Hnet Hst. rewrite Hnet. cbn [bind].
    rewrite (raise_for_status_error rt r Hst). cbn [bind is_RequestException]. eauto. }
  split.
  { intros r Hnet Hst. rewrite Hnet. cbn [bind].
    rewrite (raise_for_status_ok rt r Hst). reflexivity. }
  split.
  { intros e Hnet He. rewrite Hnet. cbn [bind].
    destruct e; cbn [is_RequestException] in *; try discriminate;
      try rewrite He; reflexivity. }
  split; [reflexivity|].
  split.
  { intros Hkey e Hnet. unfold Espeak.get_gemini_response.
    apply String.eqb_neq in Hkey. rewrite Hkey.
    destruct (history_lines_espeak rt H) as [ls ->]. cbn [bind].
    rewrite Hnet. reflexivity. }
  { intros Hkey r Hnet Hst. unfold Espeak.get_gemini_response.
    apply String.eqb_neq in Hkey. rewrite Hkey.
    destruct (history_lines_espeak rt H) as [ls ->]. cbn [bind].
    rewrite Hnet. cbn [bind]. apply Z.eqb_neq in Hst. now rewrite Hst. }
Qed.

Lemma transport_returns_request_errors_witness :
  exists s,
    EspeakPiper._call_gemini_api Demo.rt
      (Demo.net_raising (Timeout "read timed out")) "https://host/model" "key" PNone
    = Return (inr s).
Proof.
  apply (proj1 (proj2 (transport_returns_request_errors Demo.rt
                         (Demo.net_raising (Timeout "read timed out"))
                         "https://host/model" "key" PNone "q" "m" []))
           (Timeout "read timed out")); reflexivity.
Defined.

(** C2, counterexample.  An exception of [requests.post] that is not a
    [RequestException] escapes [_call_gemini_api]: no value is returned. *)
Lemma transport_lets_other_exceptions_escape :
  ~ (exists v,
       EspeakPiper._call_gemini_api Demo.rt
         (Demo.net_raising (OtherException "unexpected")) "https://host/model" "key"
         PNone
       = Return v).
Proof.
  intros [v H]. cbv in H. discriminate H.
Qed.

(** ** Saving and loading the history *)

Lemma valid_loaded_turns (H : list turn) :
  EspeakPiper.valid_loaded (PList (history_of H)) = true
  /\ OldCode.valid_loaded (PList (history_of H)) = true.
Proof.
  unfold EspeakPiper.valid_loaded, OldCode.valid_loaded, history_of.
  induction H as [|t H [IH1 IH2]]; [split; reflexivity|].
  cbn [map forallb turn_value List.length Nat.eqb isinstance_str andb].
  now rewrite IH1, IH2.
Qed.

(** C9.  Given that [json.load] gives back what [json.dump] wrote, for
    every history of at most [MAX_HISTORY] turns: loading the file that
    [/save] ([/save_hist] in code.py) wrote for it makes the history equal
    to it, whatever the history was before the load. *)
Theorem saved_history_loads_back
    (J : JsonFile) (H : list turn) (current : list pyval) :
  json_roundtrip J ->
  List.length H <= Shared.MAX_HISTORY ->
  EspeakPiper.load_history J current (EspeakPiper.save_history J (history_of H))
  = history_of H
  /\ OldCode.load_history J current (OldCode.save_history J (history_of H))
     = history_of H.
Proof.
  intros Hrt Hlen.
  destruct (valid_loaded_turns H) as [Hv1 Hv2].
  unfold EspeakPiper.load_history, EspeakPiper.save_history,
    OldCode.load_history, OldCode.save_history.
  rewrite Hrt, Hv1, Hv2. split; [reflexivity|].
  apply slice_last_below_cap. unfold history_of. now rewrite length_map.
Qed.

Lemma saved_history_loads_back_witness :
  OldCode.load_history Demo.J [PInt 1]
    (OldCode.save_history Demo.J (history_of [("q1", "a1"); ("q2", "a2")]))
  = history_of [("q1", "a1"); ("q2", "a2")].
Proof.
  apply (saved_history_loads_back Demo.J [("q1", "a1"); ("q2", "a2")] [PInt 1]).
  - intros v. reflexivity.
  - unfold Shared.MAX_HISTORY. simpl. lia.
Defined.

(** ** [generate_text] *)

Lemma handler_is_error (rt : Runtime) (e : exn) :
  startswith (GeminiHandler.handler rt e) "Error:" = true.
Proof.
  unfold GeminiHandler.handler.
  destruct e; try reflexivity; destruct (is_RequestException rt _); reflexivity.
Qed.

Lemma read_body_cases (rt : Runtime) (body : pyval) (s : string) :
  GeminiHandler.read_body rt body = Return s ->
  startswith s "Error:" = true \/ model_text body s.
Proof.
  unfold GeminiHandler.read_body.
  destruct (get body "candidates") as [candidates|e] eqn:Ec; cbn [bind];
    [|discriminate].
  destruct (GeminiHandler.has_parts candidates) as [[|]|e] eqn:Ehp; cbn [bind];
    [| |discriminate].
  - destruct (getitem0 candidates) as [candidate|e] eqn:E0; cbn [bind];
      [|discriminate].
    destruct (getitem candidate "content") as [content|e] eqn:E1; cbn [bind];
      [|discriminate].
    destruct (getitem content "parts") as [parts|e] eqn:E2; cbn [bind];
      [|discriminate].
    destruct (iter parts) as [items|e] eqn:E3; cbn [bind]; [|discriminate].
    destruct (join_part_texts items) as [joined|e] eqn:E4; cbn [bind];
      [|discriminate].
    destruct (String.eqb_spec (strip joined) "") as [Hempty|Hfull]; cbn [negb].
    + intros [= <-]. left. reflexivity.
    + intros [= <-]. right.
      exists candidates, candidate, content, parts, items, joined.
      repeat split; try assumption.
      (* the parts are those [has_parts] found non-empty *)
      unfold GeminiHandler.has_parts in Ehp.
      destruct (truthy candidates); [|discriminate].
      rewrite E0 in Ehp. cbn [bind] in Ehp.
      destruct candidate as [| | | | | |citems]; try discriminate.
      cbn [getitem get_default] in *.
      destruct (lookup "content" citems) as [c|]; [|discriminate].
      injection E1 as ->. cbn [bind] in Ehp.
      destruct content as [| | | | | |fields]; try discriminate.
      cbn [getitem get get_default bind] in *.
      destruct (lookup "parts" fields) as [p|]; [|discriminate].
      injection E2 as ->. now injection Ehp.
  - destruct (get body "promptFeedback") as [prompt_feedback|e] eqn:Epf;
      cbn [bind]; [|discriminate].
    destruct (truthy prompt_feedback).
    + destruct (get prompt_feedback "blockReason") as [reason|e] eqn:Ebr;
        cbn [bind]; [|discriminate].
      destruct (truthy reason).
      * destruct (getitem prompt_feedback "blockReason"); cbn [bind];
          [|discriminate].
        intros [= <-]. left. reflexivity.
      * intros [= <-]. left. reflexivity.
    + cbn [bind]. intros [= <-]. left. reflexivity.
Qed.

(** C10.  [generate_text] returns a string for every network behaviour,
    key, model name, prompt and history list; and the string either
    begins with [Error:], or the request was answered with a status that
    is not an HTTP error and a body that decodes, and the string is the
    non-empty text of the model in that body.  So every failure (an
    exception of [requests.post] of any class, an HTTP error status, a
    body that does not decode or has the wrong structure, a blocked
    prompt, an empty text) comes back as an [Error:] string. *)
Theorem generate_text_returns_text_or_error
    (rt : Runtime) (net : network) (api_key model_name prompt : string)
    (history : list pyval) :
  exists s,
    GeminiHandler.generate_text rt net api_key model_name prompt history = Return s
    /\ (startswith s "Error:" = true
        \/ exists r body,
             net (GeminiHandler.api_request api_key model_name prompt history)
               = Return r
             /\ ~ (400 <= status_code r < 600)%Z
             /\ json r = inl body
             /\ model_text body s).
Proof.
  unfold GeminiHandler.generate_text.
  destruct (GeminiHandler.try_block rt net api_key model_name prompt history)
    as [s|e] eqn:Etry.
  - exists s. split; [reflexivity|].
    unfold GeminiHandler.try_block in Etry.
    destruct (net (GeminiHandler.api_request api_key model_name prompt history))
      as [r|e] eqn:Enet; cbn [bind] in Etry; [|discriminate].
    unfold raise_for_status in Etry.
    destruct ((400 <=? status_code r)%Z && (status_code r <? 600)%Z) eqn:Est;
      cbn [bind] in Etry; [discriminate|].
    unfold response_json in Etry.
    destruct (json r) as [body|msg] eqn:Ejson; cbn [bind] in Etry; [|discriminate].
    destruct (read_body_cases rt body s Etry) as [Herr|Hok]; [now left|].
    right. exists r, body. repeat split; try assumption.
    intros [Hlo Hhi]. apply Z.leb_le in Hlo. apply Z.ltb_lt in Hhi.
    rewrite Hlo, Hhi in Est. discriminate.
  - exists (GeminiHandler.handler rt e). split; [reflexivity|].
    left. apply handler_is_error.
Qed.

(** ** The response parser of gemini.espeak_and_piper1.py *)

Section Parser.
Context (rt : Runtime).

Lemma get_field (items : list (string * pyval)) (k : string) :
  get (PDict items) k = Return (field k items).
Proof. reflexivity. Qed.

Lemma get_returns_str (v : pyval) (k s : string) :
  get v k = Return (PStr s) ->
  exists items, v = PDict items /\ field k items = PStr s /\ truthy v = true.
Proof.
  destruct v as [| | | | | |items]; try discriminate.
  rewrite get_field. intros [= Hf]. exists items. repeat split; [exact Hf|].
  destruct items; [discriminate Hf | reflexivity].
Qed.

Lemma prompt_block_none (items : list (string * pyval)) :
  not_blocked items -> EspeakPiper1.prompt_block rt (PDict items) = Return None.
Proof.
  unfold EspeakPiper1.prompt_block. rewrite get_field. cbn [bind].
  intros [Hfalsy | [feedback [Hpf Hreason]]].
  - now rewrite Hfalsy.
  - rewrite Hpf. destruct (truthy (PDict feedback)); [|reflexivity].
    rewrite get_field. cbn [bind].
    destruct Hreason as [-> | ->]; [reflexivity|].
    now rewrite andb_false_r.
Qed.

Lemma prompt_block_some (items : list (string * pyval)) (reason : pyval) :
  blocked_for items reason ->
  EspeakPiper1.prompt_block rt (PDict items)
  = Return (Some ("Error: Response blocked due to content policy (default). Reason: "
                    ++ str rt reason ++ ".")).
Proof.
  intros [feedback [Hpf [Hreason [Htruthy Hspec]]]].
  unfold EspeakPiper1.prompt_block. rewrite get_field. cbn [bind]. rewrite Hpf.
  assert (Hdict : truthy (PDict feedback) = true).
  { destruct feedback; [|reflexivity].
    subst reason. discriminate Htruthy. }
  rewrite Hdict, !get_field. cbn [bind].
  rewrite Hreason, Htruthy, Hspec. reflexivity.
Qed.

Lemma join_text_parts (texts : list string) :
  join_part_texts (map text_part texts) = Return (String.concat "" texts).
Proof.
  unfold join_part_texts.
  assert (Hmap : map_outcome (fun part => get_default part "text" (PStr ""))
                   (map text_part texts)
                 = Return (map PStr texts)).
  { induction texts as [|s texts IH]; [reflexivity|].
    cbn [map map_outcome text_part get_default lookup String.eqb Ascii.eqb
         Bool.eqb bind].
    change (map_outcome _ (map text_part texts))
      with (map_outcome (fun part => get_default part "text" (PStr ""))
              (map text_part texts)).
    rewrite IH. reflexivity. }
  rewrite Hmap. cbn [bind]. clear Hmap.
  induction texts as [|s texts IH]; [reflexivity|].
  cbn [map join_values]. rewrite IH. cbn [bind].
  destruct texts as [|s' texts]; reflexivity.
Qed.

(** The text extracted from a content whose parts all hold text is
    their concatenation, trimmed. *)
Lemma extract_text_of_parts (fields : list (string * pyval)) (texts : list string) :
  texts <> [] ->
  lookup "parts" fields = Some (PList (map text_part texts)) ->
  EspeakPiper1.extract_text (PDict fields)
  = Return (strip (String.concat "" texts)).
Proof.
  intros Hne Hparts. unfold EspeakPiper1.extract_text.
  assert (Hdict : truthy (PDict fields) = true).
  { destruct fields; [discriminate Hparts | reflexivity]. }
  rewrite Hdict. cbn [contains getitem]. rewrite Hparts. cbn [bind].
  assert (Hlist : truthy (PList (map text_part texts)) = true).
  { destruct texts; [contradiction | reflexivity]. }
  rewrite Hlist. cbn [iter bind]. rewrite join_text_parts. reflexivity.
Qed.

Lemma parse_decoded (r : response) (body : pyval) (s : string) :
  json r = inl body ->
  EspeakPiper1.parse_body rt body = Return s ->
  EspeakPiper1._parse_gemini_response rt (inl r) = s.
Proof.
  intros Hjson Hbody. unfold EspeakPiper1._parse_gemini_response, response_json.
  rewrite Hjson. cbn [bind]. now rewrite Hbody.
Qed.

(** C3, as amended.  For every response whose body decodes to an object
    with no top-level error and no block reason in its prompt feedback,
    and whose first candidate has finishReason MAX_TOKENS: when the
    extraction of the text succeeds with the trimmed text [t],
    [_parse_gemini_response] returns the MAX_TOKENS warning followed by
    [t] if [t] is not empty, and the MAX_TOKENS error if it is. *)
Theorem max_tokens_warning_with_text_else_error
    (r : response) (items : list (string * pyval)) (candidate : pyval)
    (others : list pyval) (t : string) :
  json r = inl (PDict items) ->
  truthy (field "error" items) = false ->
  not_blocked items ->
  field "candidates" items = PList (candidate :: others) ->
  get candidate "finishReason" = Return (PStr "MAX_TOKENS") ->
  (content <- get candidate "content" ;; EspeakPiper1.extract_text content)
    = Return t ->
  EspeakPiper1._parse_gemini_response rt (inl r)
  = if String.eqb t ""
    then "Error: Candidate finished due to maximum token limit (MAX_TOKENS). No partial content extracted."
    else "Warning: MAX_TOKENS limit reached. Output may be incomplete." ++ nl
           ++ "---" ++ nl ++ t.
Proof.
  intros Hjson Herr Hblock Hcands Hfinish Htext.
  apply (parse_decoded r (PDict items)); [exact Hjson|].
  destruct (get_returns_str _ _ _ Hfinish) as [fields [-> [Hfr Htruthy]]].
  unfold EspeakPiper1.parse_body.
  rewrite !get_field in *. cbn [bind] in *.
  rewrite Herr, (prompt_block_none items Hblock). cbn [bind].
  rewrite Hcands.
  change (truthy (PList (PDict fields :: others))) with true.
  cbn [negb getitem0 bind]. rewrite Htruthy. cbn [negb].
  rewrite !get_field. cbn [bind]. rewrite Hfr, Htext. cbn [bind].
  unfold EspeakPiper1.finish. cbn.
  destruct (String.eqb t ""); reflexivity.
Qed.

(** [_parse_gemini_response] without candidates.  For every response whose body decodes
    to an object with no top-level error and with candidates missing,
    null or empty: if the prompt feedback has a block reason other than
    the unspecified one, the result is the blocked error naming it;
    if there is no prompt feedback, or one without such a reason, the
    result is the no-candidates error followed by the JSON text of the
    body. *)
Lemma no_candidates_blocked_or_reported
    (r : response) (items : list (string * pyval)) :
  json r = inl (PDict items) ->
  truthy (field "error" items) = false ->
  truthy (field "candidates" items) = false ->
  (forall reason, blocked_for items reason ->
     EspeakPiper1._parse_gemini_response rt (inl r)
     = "Error: Response blocked due to content policy (default). Reason: "
         ++ str rt reason ++ ".")
  /\ (not_blocked items ->
      EspeakPiper1._parse_gemini_response rt (inl r)
      = "Error: No candidates found in response and no blocking reason identified. Response JSON: "
          ++ json_dumps rt (PDict items)).
Proof.
  intros Hjson Herr Hcands. split.
  - intros reason Hblocked. apply (parse_decoded r (PDict items)); [exact Hjson|].
    unfold EspeakPiper1.parse_body. rewrite get_field. cbn [bind].
    rewrite Herr, (prompt_block_some items reason Hblocked). reflexivity.
  - intros Hfree. apply (parse_decoded r (PDict items)); [exact Hjson|].
    unfold EspeakPiper1.parse_body. rewrite get_field. cbn [bind].
    rewrite Herr, (prompt_block_none items Hfree). cbn [bind].
    rewrite get_field. cbn [bind]. now rewrite Hcands.
Qed.

End Parser.

Lemma max_tokens_warning_with_text_else_error_witness :
  EspeakPiper1._parse_gemini_response Demo.rt
    (inl (Demo.ok_response (PDict (Demo.candidate_body "MAX_TOKENS" "partial"))))
  = "Warning: MAX_TOKENS limit reached. Output may be incomplete." ++ nl
      ++ "---" ++ nl ++ "partial".
Proof.
  apply (max_tokens_warning_with_text_else_error Demo.rt
           (Demo.ok_response (PDict (Demo.candidate_body "MAX_TOKENS" "partial")))
           (Demo.candidate_body "MAX_TOKENS" "partial")
           (PDict [("content", PDict [("parts", PList [PDict [("text", PStr "partial")]]);
                                      ("role", PStr "model")]);
                   ("finishReason", PStr "MAX_TOKENS")])
           [] "partial").
  - reflexivity.
  - reflexivity.
  - left. reflexivity.
  - reflexivity.
  - reflexivity.
  - cbn [get get_default lookup String.eqb Ascii.eqb Bool.eqb bind].
    apply (extract_text_of_parts _ ["partial"]); [discriminate | reflexivity].
Defined.


(** C3, counterexample.  A body whose first candidate has finishReason
    MAX_TOKENS and the text [partial], and whose prompt feedback names
    the block reason SAFETY: the parser reports the block, it does not
    return the text with the MAX_TOKENS warning. *)
Lemma max_tokens_behind_prompt_block :
  let body :=
    PDict (("promptFeedback", PDict [("blockReason", PStr "SAFETY")])
             :: Demo.candidate_body "MAX_TOKENS" "partial") in
  EspeakPiper1._parse_gemini_response Demo.rt (inl (Demo.ok_response body))
  = "Error: Response blocked due to content policy (default). Reason: SAFETY."
  /\ EspeakPiper1._parse_gemini_response Demo.rt (inl (Demo.ok_response body))
     <> "Warning: MAX_TOKENS limit reached. Output may be incomplete." ++ nl
          ++ "---" ++ nl ++ "partial".
Proof.
  split; [vm_compute; reflexivity | vm_compute; discriminate].
Qed.

(** ** Bodies without candidates *)

Lemma getitem_truthy_field (items : list (string * pyval)) (k : string) :
  truthy (field k items) = true ->
  getitem (PDict items) k = Return (field k items).
Proof.
  unfold field, getitem. destruct (lookup k items); [reflexivity | discriminate].
Qed.

(** [generate_text] without candidates: any block reason of the prompt
    feedback, the unspecified one included, gives the blocked error; no
    prompt feedback, or one without a block reason, gives the fixed
    message. *)
Lemma generate_text_without_candidates
    (rt : Runtime) (net : network) (api_key model_name prompt : string)
    (history : list pyval) (r : response) (items : list (string * pyval)) :
  net (GeminiHandler.api_request api_key model_name prompt history) = Return r ->
  ~ (400 <= status_code r < 600)%Z ->
  json r = inl (PDict items) ->
  truthy (field "candidates" items) = false ->
  (forall feedback,
     field "promptFeedback" items = PDict feedback ->
     truthy (field "blockReason" feedback) = true ->
     GeminiHandler.generate_text rt net api_key model_name prompt history
     = Return ("Error: Your request was blocked by the API. Reason: "
                 ++ str rt (field "blockReason" feedback)))
  /\ (truthy (field "promptFeedback" items) = false
      \/ (exists feedback,
            field "promptFeedback" items = PDict feedback
            /\ truthy (field "blockReason" feedback) = false) ->
      GeminiHandler.generate_text rt net api_key model_name prompt history
      = Return "Error: Could not parse the response from the model.").
Proof.
  intros Hnet Hstatus Hjson Hcands.
  assert (Hgen : forall s,
             GeminiHandler.read_body rt (PDict items) = Return s ->
             GeminiHandler.generate_text rt net api_key model_name prompt history
             = Return s).
  { intros s Hbody. unfold GeminiHandler.generate_text, GeminiHandler.try_block.
    rewrite Hnet. cbn [bind]. rewrite (raise_for_status_ok rt r Hstatus).
    cbn [bind]. unfold response_json. rewrite Hjson. cbn [bind].
    now rewrite Hbody. }
  assert (Hbody : GeminiHandler.read_body rt (PDict items)
                  = (prompt_feedback <- get (PDict items) "promptFeedback" ;;
                     blocked <- (if truthy prompt_feedback
                                 then reason <- get prompt_feedback "blockReason" ;;
                                      Return (truthy reason)
                                 else Return false) ;;
                     if blocked : bool then
                       reason <- getitem prompt_feedback "blockReason" ;;
                       Return ("Error: Your request was blocked by the API. Reason: "
                                 ++ str rt reason)
                     else Return "Error: Could not parse the response from the model.")).
  { unfold GeminiHandler.read_body, GeminiHandler.has_parts.
    rewrite get_field. cbn [bind]. now rewrite Hcands. }
  split.
  - intros feedback Hpf Hreason. apply Hgen. rewrite Hbody, get_field.
    cbn [bind]. rewrite Hpf.
    assert (Hdict : truthy (PDict feedback) = true).
    { destruct feedback; [discriminate Hreason | reflexivity]. }
    rewrite Hdict, get_field. cbn [bind]. rewrite Hreason.
    rewrite (getitem_truthy_field feedback "blockReason" Hreason). reflexivity.
  - intros Hfree. apply Hgen. rewrite Hbody, get_field. cbn [bind].
    destruct Hfree as [Hfalsy | [feedback [Hpf Hreason]]].
    + now rewrite Hfalsy.
    + rewrite Hpf. destruct (truthy (PDict feedback)); [|reflexivity].
      rewrite get_field. cbn [bind]. now rewrite Hreason.
Qed.

(** C4, as amended.  For every response whose body decodes to an object
    with candidates missing, null or empty:
    - [_parse_gemini_response] of gemini.espeak_and_piper1.py, when the
      body has no top-level error, returns the blocked error naming the
      block reason of the prompt feedback if there is one other than the
      unspecified one, and otherwise the no-candidates error followed by
      the JSON text of the body;
    - [generate_text], when the status is not an HTTP error, returns the
      blocked error naming the block reason of the prompt feedback
      whenever there is one, the unspecified one included, and otherwise
      the message that the response could not be parsed. *)
Theorem no_candidates_blocked_or_not_parsed
    (rt : Runtime) (net : network) (api_key model_name prompt : string)
    (history : list pyval) (r : response) (items : list (string * pyval)) :
  json r = inl (PDict items) ->
  truthy (field "candidates" items) = false ->
  (truthy (field "error" items) = false ->
   (forall reason, blocked_for items reason ->
      EspeakPiper1._parse_gemini_response rt (inl r)
      = "Error: Response blocked due to content policy (default). Reason: "
          ++ str rt reason ++ ".")
   /\ (not_blocked items ->
       EspeakPiper1._parse_gemini_response rt (inl r)
       = "Error: No candidates found in response and no blocking reason identified. Response JSON: "
           ++ json_dumps rt (PDict items)))
  /\
  (net (GeminiHandler.api_request api_key model_name prompt history) = Return r ->
   ~ (400 <= status_code r < 600)%Z ->
   (forall feedback,
      field "promptFeedback" items = PDict feedback ->
      truthy (field "blockReason" feedback) = true ->
      GeminiHandler.generate_text rt net api_key model_name prompt history
      = Return ("Error: Your request was blocked by the API. Reason: "
                  ++ str rt (field "blockReason" feedback)))
   /\ (truthy (field "promptFeedback" items) = false
       \/ (exists feedback,
             field "promptFeedback" items = PDict feedback
             /\ truthy (field "blockReason" feedback) = false) ->
       GeminiHandler.generate_text rt net api_key model_name prompt history
       = Return "Error: Could not parse the response from the model.")).
Proof.
  intros Hjson Hcands. split.
  - intros Herr.
    exact (no_candidates_blocked_or_reported rt r items Hjson Herr Hcands).
  - intros Hnet Hstatus.
    exact (generate_text_without_candidates rt net api_key model_name prompt
             history r items Hnet Hstatus Hjson Hcands).
Qed.

Lemma no_candidates_blocked_or_not_parsed_witness :
  EspeakPiper1._parse_gemini_response Demo.rt
    (inl (Demo.ok_response (PDict (Demo.blocked_body "SAFETY"))))
  = "Error: Response blocked due to content policy (default). Reason: SAFETY."
  /\ GeminiHandler.generate_text Demo.rt
       (Demo.net_answering (Demo.ok_response (PDict (Demo.blocked_body "SAFETY"))))
       "key" "model" "prompt" []
     = Return "Error: Your request was blocked by the API. Reason: SAFETY".
Proof.
  pose proof (no_candidates_blocked_or_not_parsed Demo.rt
                (Demo.net_answering
                   (Demo.ok_response (PDict (Demo.blocked_body "SAFETY"))))
                "key" "model" "prompt" []
                (Demo.ok_response (PDict (Demo.blocked_body "SAFETY")))
                (Demo.blocked_body "SAFETY") eq_refl eq_refl) as [Hparse Hgen].
  split.
  - apply (proj1 (Hparse eq_refl) (PStr "SAFETY")).
    exists [("blockReason", PStr "SAFETY")]. repeat split.
  - apply (proj1 (Hgen eq_refl ltac:(cbn; lia)) [("blockReason", PStr "SAFETY")]);
      reflexivity.
Defined.

(** C4, counterexample.  In [generate_text] the unspecified block reason
    blocks like any other: the body with no candidates and that reason
    gives the blocked error, not the error for a response without
    candidates. *)
Lemma unspecified_reason_blocks_in_generate_text :
  GeminiHandler.generate_text Demo.rt
    (Demo.net_answering
       (Demo.ok_response (PDict (Demo.blocked_body "BLOCK_REASON_UNSPECIFIED"))))
    "key" "model" "prompt" []
  = Return "Error: Your request was blocked by the API. Reason: BLOCK_REASON_UNSPECIFIED"
  /\ GeminiHandler.generate_text Demo.rt
       (Demo.net_answering
          (Demo.ok_response (PDict (Demo.blocked_body "BLOCK_REASON_UNSPECIFIED"))))
       "key" "model" "prompt" []
     <> Return "Error: Could not parse the response from the model.".
Proof.
  split; [vm_compute; reflexivity | vm_compute; discriminate].
Qed.

(** * Further properties of the scripts *)

(** ** The parsers *)

Section MoreParser.
Context (rt : Runtime).

Lemma get_default_field (items : list (string * pyval)) (k : string) (d : pyval) :
  get_default (PDict items) k d = Return (field_or k d items).
Proof. reflexivity. Qed.

(** X1.  In the two old scripts a top-level [error] object decides the
    result, whatever else the body holds: the parser returns its message
    and code, with [Unknown API error] and [N/A] for the missing ones. *)
Theorem api_error_reported_whatever_else
    (r : response) (items error_fields : list (string * pyval)) :
  json r = inl (PDict items) ->
  field "error" items = PDict error_fields ->
  error_fields <> [] ->
  let expected :=
    "Error from API: "
      ++ str rt (field_or "message" (PStr "Unknown API error") error_fields)
      ++ " (Code: " ++ str rt (field_or "code" (PStr "N/A") error_fields) ++ ")" in
  EspeakPiper1._parse_gemini_response rt (inl r) = expected
  /\ OldCode._parse_gemini_response rt (inl r) = expected.
Proof.
  intros Hjson Herr Hne expected. subst expected.
  assert (Htruthy : truthy (PDict error_fields) = true).
  { destruct error_fields; [contradiction | reflexivity]. }
  split.
  - apply (parse_decoded rt r (PDict items)); [exact Hjson|].
    unfold EspeakPiper1.parse_body. rewrite get_field. cbn [bind].
    rewrite Herr, Htruthy, !get_default_field. reflexivity.
  - unfold OldCode._parse_gemini_response, response_json. rewrite Hjson.
    cbn [bind]. unfold OldCode.parse_body. rewrite get_field. cbn [bind].
    rewrite Herr, Htruthy, !get_default_field. reflexivity.
Qed.

(** X3.  The parser of gemini.espeak_and_piper.py returns the text of
    the first part of the first candidate as it is whenever that text is
    not empty: it looks neither at the finish reason, nor at the other
    parts, nor at a top-level error or a prompt feedback. *)
Theorem first_part_returned_unconditionally
    (r : response) (items candidate content part : list (string * pyval))
    (others more : list pyval) (t : pyval) :
  json r = inl (PDict items) ->
  field "candidates" items = PList (PDict candidate :: others) ->
  field "content" candidate = PDict content ->
  field "parts" content = PList (PDict part :: more) ->
  field_or "text" (PStr "") part = t ->
  truthy t = true ->
  EspeakPiper._parse_gemini_response rt (inl r) = t.
Proof.
  intros Hjson Hcands Hcontent Hparts Htext Htruthy.
  assert (Hc : truthy (PDict candidate) = true).
  { destruct candidate; [discriminate Hcontent | reflexivity]. }
  assert (Hk : truthy (PDict content) = true).
  { destruct content; [discriminate Hparts | reflexivity]. }
  unfold EspeakPiper._parse_gemini_response, response_json. rewrite Hjson.
  cbn [bind]. unfold EspeakPiper.parse_body. rewrite get_field. cbn [bind].
  rewrite Hcands.
  change (truthy (PList (PDict candidate :: others))) with true.
  cbn [negb getitem0 bind]. rewrite Hc. cbn [negb].
  rewrite get_field. cbn [bind]. rewrite Hcontent, Hk. cbn [negb].
  rewrite get_field. cbn [bind]. rewrite Hparts.
  change (truthy (PList (PDict part :: more))) with true.
  cbn [negb getitem0 bind]. rewrite get_default_field. cbn [bind].
  rewrite Htext, Htruthy. reflexivity.
Qed.

End MoreParser.

Lemma api_error_reported_whatever_else_witness :
  EspeakPiper1._parse_gemini_response Demo.rt
    (inl (Demo.ok_response
            (PDict (("error", PDict [("message", PStr "X"); ("code", PInt 7)])
                      :: Demo.candidate_body "STOP" "Hi."))))
  = "Error from API: X (Code: <value>)".
Proof.
  apply (api_error_reported_whatever_else Demo.rt
           (Demo.ok_response
              (PDict (("error", PDict [("message", PStr "X"); ("code", PInt 7)])
                        :: Demo.candidate_body "STOP" "Hi.")))
           (("error", PDict [("message", PStr "X"); ("code", PInt 7)])
              :: Demo.candidate_body "STOP" "Hi.")
           [("message", PStr "X"); ("code", PInt 7)]);
    [reflexivity | reflexivity | discriminate].
Defined.

Lemma first_part_returned_unconditionally_witness :
  EspeakPiper._parse_gemini_response Demo.rt
    (inl (Demo.ok_response (PDict (Demo.candidate_body "MAX_TOKENS" "partial"))))
  = PStr "partial".
Proof.
  apply (first_part_returned_unconditionally Demo.rt
           (Demo.ok_response (PDict (Demo.candidate_body "MAX_TOKENS" "partial")))
           (Demo.candidate_body "MAX_TOKENS" "partial")
           [("content", PDict [("parts", PList [PDict [("text", PStr "partial")]]);
                               ("role", PStr "model")]);
            ("finishReason", PStr "MAX_TOKENS")]
           [("parts", PList [PDict [("text", PStr "partial")]]); ("role", PStr "model")]
           [("text", PStr "partial")] [] [] (PStr "partial"));
    reflexivity.
Defined.

(** ** The transport of the old scripts *)

Section MoreTransport.
Context (rt : Runtime).

Lemma http_error_text_prefix (msg : string) (resp : response) :
  exists detail,
    Shared.http_error_text rt msg resp
    = "Error: HTTP " ++ str_int (status_code resp) ++ " - " ++ detail.
Proof.
  unfold Shared.http_error_text.
  destruct (_ <- response_json resp ;; _) as [s|e] eqn:E.
  - unfold response_json in E. destruct (json resp) as [details|m];
      cbn [bind] in E; [|discriminate].
    destruct (get_default details "error" (PDict [])) as [api_error|e];
      cbn [bind] in E; [|discriminate].
    destruct (get_default api_error "message" (PStr "Unknown API error"))
      as [message|e]; cbn [bind] in E; [|discriminate].
    injection E as <-. eexists. reflexivity.
  - destruct e; eexists; reflexivity.
Qed.

(** X4.  [_call_gemini_api] of the old scripts (timeout 180 in
    gemini.espeak_and_piper1.py, 240 in code.py) hands back the response
    exactly when the network answered with a status that is not an HTTP
    error.  A timeout gives the timed-out message; an HTTP error status
    gives [Error: HTTP <status> - ...], and when the body of the error
    response is a JSON object whose [error] object has a [message], that
    message is the detail. *)
Theorem old_transport_returns_response_or_http_error
    (timeout : Z) (net : network) (url api_key : string) (data : pyval) :
  let req := mkRequest (url ++ "?key=" ++ api_key) data (Some timeout) in
  let result := Shared.call_gemini_api rt timeout net url api_key data in
  (forall r, result = inl r <-> (net req = Return r /\ ~ http_error_status r))
  /\ (forall m, net req = Raise (Timeout m) ->
        result = inr "Error: API request timed out.")
  /\ (forall r, net req = Return r -> http_error_status r ->
        exists detail,
          result = inr ("Error: HTTP " ++ str_int (status_code r) ++ " - " ++ detail))
  /\ (forall r fields error_fields,
        net req = Return r -> http_error_status r ->
        json r = inl (PDict fields) ->
        field_or "error" (PDict []) fields = PDict error_fields ->
        result = inr ("Error: HTTP " ++ str_int (status_code r) ++ " - "
                        ++ str rt (field_or "message" (PStr "Unknown API error")
                                     error_fields))).
Proof.
  intros req result. subst req result. unfold Shared.call_gemini_api.
  split; [|split; [|split]].
  - intros r. split.
    + intros Hres.
      destruct (net _) as [r'|e] eqn:Enet; cbn [bind] in Hres.
      * unfold raise_for_status in Hres.
        destruct ((400 <=? status_code r')%Z && (status_code r' <? 600)%Z) eqn:Est;
          cbn [bind] in Hres; [discriminate|].
        injection Hres as ->. split; [reflexivity|].
        unfold http_error_status. intros [Hlo Hhi].
        apply Z.leb_le in Hlo. apply Z.ltb_lt in Hhi. rewrite Hlo, Hhi in Est.
        discriminate.
      * destruct e; try discriminate; destruct (is_RequestException rt _);
          discriminate.
    + intros [Hnet Hst]. rewrite Hnet. cbn [bind].
      now rewrite (raise_for_status_ok rt r Hst).
  - intros m Hnet. now rewrite Hnet.
  - intros r Hnet Hst. rewrite Hnet. cbn [bind].
    rewrite (raise_for_status_error rt r Hst). cbn [bind].
    destruct (http_error_text_prefix (http_error_msg rt r) r) as [detail ->].
    eauto.
  - intros r fields error_fields Hnet Hst Hjson Herr. rewrite Hnet. cbn [bind].
    rewrite (raise_for_status_error rt r Hst). cbn [bind].
    unfold Shared.http_error_text, response_json. rewrite Hjson. cbn [bind].
    rewrite get_default_field. cbn [bind]. rewrite Herr, get_default_field.
    reflexivity.
Qed.

End MoreTransport.

Lemma old_transport_returns_response_or_http_error_witness :
  Shared.call_gemini_api Demo.rt 180
    (Demo.net_answering
       (mkResponse 429 "{...}"
          (inl (PDict [("error", PDict [("message", PStr "Quota exceeded")])]))))
    "https://host/model" "key" PNone
  = inr "Error: HTTP 429 - Quota exceeded".
Proof.
  apply (proj2 (proj2 (proj2 (old_transport_returns_response_or_http_error
                                Demo.rt 180
                                (Demo.net_answering
                                   (mkResponse 429 "{...}"
                                      (inl (PDict [("error",
                                                    PDict [("message",
                                                            PStr "Quota exceeded")])]))))
                                "https://host/model" "key" PNone)))
           (mkResponse 429 "{...}"
              (inl (PDict [("error", PDict [("message", PStr "Quota exceeded")])])))
           [("error", PDict [("message", PStr "Quota exceeded")])]
           [("message", PStr "Quota exceeded")]);
    try reflexivity.
  unfold http_error_status. cbn. lia.
Defined.

(** ** Which failures stay out of the history *)

Section MoreHistory.
Context (rt : Runtime).

Lemma old_call_failure_is_error
    (timeout : Z) (net : network) (url api_key : string) (data : pyval) :
  (exists m, net (mkRequest (url ++ "?key=" ++ api_key) data (Some timeout))
             = Raise (Timeout m))
  \/ (exists r, net (mkRequest (url ++ "?key=" ++ api_key) data (Some timeout))
                = Return r /\ http_error_status r) ->
  exists s,
    Shared.call_gemini_api rt timeout net url api_key data = inr s
    /\ startswith s "Error:" = true.
Proof.
  unfold Shared.call_gemini_api.
  intros [[m Hnet] | [r [Hnet Hst]]]; rewrite Hnet; cbn [bind].
  - eexists. split; reflexivity.
  - rewrite (raise_for_status_error rt r Hst). cbn [bind].
    destruct (http_error_text_prefix rt (http_error_msg rt r) r) as [detail ->].
    eexists. split; reflexivity.
Qed.

(** X5.  In gemini.espeak_and_piper1.py, for a history of two-element
    lists: a chat turn without an API key, or whose request times out or
    is answered with an HTTP error status, returns normally and leaves
    the history as it was. *)
Theorem old_chat_turn_drops_timeouts_and_http_errors
    (net : network) (env_key : option string) (pairs : list (pyval * pyval))
    (query : string) :
  (env_key = None \/ env_key = Some ""
   \/ (forall rq, (exists m, net rq = Raise (Timeout m))
                  \/ (exists r, net rq = Return r /\ http_error_status r))) ->
  EspeakPiper1.chat_turn rt net env_key (map pair_value pairs) query
  = Return (map pair_value pairs).
Proof.
  unfold EspeakPiper1.chat_turn, EspeakPiper1.get_gemini_response.
  intros [-> | [-> | Hnet]]; try reflexivity.
  destruct env_key as [api_key|]; [|reflexivity].
  destruct (String.eqb api_key ""); [reflexivity|].
  destruct (espeak_piper1_payload_pairs rt query pairs EspeakPiper1.base_modifier)
    as [final [Heq _]].
  rewrite Heq. cbn [snd bind payload EspeakPiper1.with_generation_config].
  unfold EspeakPiper1._call_gemini_api.
  destruct (old_call_failure_is_error 180 net EspeakPiper1.url api_key
              (PDict (setitem "generationConfig" EspeakPiper1.generation_config
                        [("contents",
                          PList (kept_entries pairs
                                   ++ [content_entry "user" (PStr final)]))]))
              (Hnet _)) as [s [-> Hs]].
  cbn [EspeakPiper1._parse_gemini_response].
  unfold EspeakPiper1.update_history. now rewrite Hs.
Qed.

(** X6.  In gemini.espeak_and_piper.py, for a history of two-element
    lists: a turn whose request times out leaves the history as it was
    and the loop goes on; a turn without an API key leaves the history
    as it was and ends the loop. *)
Theorem main_turn_on_timeout_and_missing_key
    (net : network) (env_key : option string) (pairs : list (pyval * pyval))
    (query : string) :
  ((env_key = None \/ env_key = Some "") ->
   EspeakPiper.main_turn rt net env_key (map pair_value pairs) query
   = (map pair_value pairs, false))
  /\ (forall api_key m,
        env_key = Some api_key -> api_key <> "" ->
        (forall rq, net rq = Raise (Timeout m)) ->
        EspeakPiper.main_turn rt net env_key (map pair_value pairs) query
        = (map pair_value pairs, true)).
Proof.
  unfold EspeakPiper.main_turn, EspeakPiper.chat_turn,
    EspeakPiper.get_gemini_response.
  split.
  - intros [-> | ->]; reflexivity.
  - intros api_key m -> Hkey Hnet. apply String.eqb_neq in Hkey. rewrite Hkey.
    destruct (espeak_piper_payload_pairs rt query pairs EspeakPiper.modifier)
      as [final [Heq _]].
    rewrite Heq. cbn [snd bind]. unfold EspeakPiper._call_gemini_api.
    rewrite Hnet. reflexivity.
Qed.

End MoreHistory.

Lemma old_chat_turn_drops_timeouts_and_http_errors_witness :
  EspeakPiper1.chat_turn Demo.rt
    (Demo.net_answering (mkResponse 503 "unavailable" (inr "not JSON")))
    (Some "key") (map pair_value [(PStr "q", PStr "a")]) "hi"
  = Return (map pair_value [(PStr "q", PStr "a")]).
Proof.
  apply (old_chat_turn_drops_timeouts_and_http_errors Demo.rt).
  right. right. intros rq. right.
  exists (mkResponse 503 "unavailable" (inr "not JSON")).
  split; [reflexivity | unfold http_error_status; cbn; lia].
Defined.

Lemma main_turn_on_timeout_and_missing_key_witness :
  EspeakPiper.main_turn Demo.rt (Demo.net_raising (Timeout "read timed out"))
    (Some "key") (map pair_value [(PStr "q", PInt 3)]) "hi"
  = (map pair_value [(PStr "q", PInt 3)], true).
Proof.
  apply (proj2 (main_turn_on_timeout_and_missing_key Demo.rt
                  (Demo.net_raising (Timeout "read timed out")) (Some "key")
                  [(PStr "q", PInt 3)] "hi") "key" "read timed out");
    [reflexivity | discriminate | reflexivity].
Defined.

(** ** The loop of gemini.espeak_and_piper.py *)

Section MainLoop.
Context (rt : Runtime) (J : JsonFile).

Lemma pairs_of_is_pair (history : list pyval) :
  forallb is_pair history = true ->
  exists pairs, history = map pair_value pairs.
Proof.
  induction history as [|v history IH]; intros Hall.
  - now exists [].
  - cbn [forallb] in Hall. apply andb_prop in Hall as [Hv Hrest].
    destruct (IH Hrest) as [pairs ->].
    destruct v as [| | | | |l|]; try discriminate.
    destruct l as [|a [|b [|c l]]]; try discriminate.
    now exists ((a, b) :: pairs).
Qed.

Lemma is_pair_skipn (n : nat) (history : list pyval) :
  forallb is_pair history = true -> forallb is_pair (skipn n history) = true.
Proof.
  revert history. induction n as [|n IH]; intros history Hall; [exact Hall|].
  destruct history as [|v history]; [reflexivity|].
  cbn [forallb] in Hall. apply andb_prop in Hall as [_ Hrest]. now apply IH.
Qed.

Lemma is_pair_slice_last (n : nat) (history : list pyval) :
  forallb is_pair history = true -> forallb is_pair (slice_last n history) = true.
Proof.
  intros Hall. destruct n; [exact Hall|]. now apply is_pair_skipn.
Qed.

Lemma is_pair_store (history : list pyval) (query : string) (response : pyval) :
  forallb is_pair history = true ->
  forallb is_pair (EspeakPiper.store_interaction history query response) = true.
Proof.
  intros Hall. unfold EspeakPiper.store_interaction. apply is_pair_slice_last.
  rewrite forallb_app, Hall. reflexivity.
Qed.

Lemma is_pair_valid_loaded (items : list pyval) :
  EspeakPiper.valid_loaded (PList items) = true -> forallb is_pair items = true.
Proof.
  unfold EspeakPiper.valid_loaded.
  induction items as [|v items IH]; [reflexivity|].
  cbn [forallb]. intros Hall. apply andb_prop in Hall as [Hv Hrest].
  rewrite (IH Hrest), andb_true_r.
  destruct v as [| | | | |l|]; try discriminate.
  destruct l as [|a [|b [|c l]]]; try discriminate. reflexivity.
Qed.

Lemma is_pair_load (history : list pyval) (f : file J) :
  forallb is_pair history = true ->
  forallb is_pair (EspeakPiper.load_history J history f) = true.
Proof.
  intros Hall. unfold EspeakPiper.load_history.
  destruct (json_load J f) as [loaded|e]; [|exact Hall].
  destruct loaded as [| | | | |items|]; try exact Hall.
  destruct (EspeakPiper.valid_loaded (PList items)) eqn:Hvalid; [|exact Hall].
  now apply is_pair_valid_loaded.
Qed.

Lemma is_pair_main_turn (net : network) (env_key : option string)
    (history : list pyval) (query : string) :
  forallb is_pair history = true ->
  forallb is_pair (fst (EspeakPiper.main_turn rt net env_key history query)) = true.
Proof.
  intros Hall. unfold EspeakPiper.main_turn.
  destruct (EspeakPiper.chat_turn rt net env_key history query)
    as [history'|e] eqn:Eturn.
  - cbn [fst]. unfold EspeakPiper.chat_turn in Eturn.
    destruct (EspeakPiper.get_gemini_response rt net env_key query history
                EspeakPiper.modifier) as [response|e]; cbn [bind] in Eturn;
      [|discriminate].
    destruct (startswith_val response "Error:") as [[|]|e]; cbn [bind negb] in Eturn;
      try discriminate; injection Eturn as <-;
      [exact Hall | now apply is_pair_store].
  - destruct e; exact Hall.
Qed.

Lemma is_pair_main_step (w : EspeakPiper.world J) (history : list pyval)
    (line : string) :
  forallb is_pair history = true ->
  forallb is_pair (fst (fst (EspeakPiper.main_step rt J w history line))) = true.
Proof.
  intros Hall. unfold EspeakPiper.main_step.
  destruct (String.eqb (strip line) ""); [exact Hall|].
  destruct (String.eqb (lower (strip line)) "exit"); [exact Hall|].
  destruct (String.eqb (lower (strip line)) "/clear"); [reflexivity|].
  destruct (startswith (lower (strip line)) "/save ").
  { destruct (split_maxsplit1 (strip line)) as [|? [|? [|? ?]]]; exact Hall. }
  destruct (startswith (lower (strip line)) "/load ").
  { destruct (split_maxsplit1 (strip line)) as [|? [|filename [|? ?]]];
      try exact Hall.
    destruct (EspeakPiper.w_open w filename); [|exact Hall].
    now apply is_pair_load. }
  pose proof (is_pair_main_turn (EspeakPiper.w_net w) (EspeakPiper.w_key w)
                history (strip line) Hall) as Hturn.
  destruct (EspeakPiper.main_turn rt (EspeakPiper.w_net w) (EspeakPiper.w_key w)
              history (strip line)) as [history' running].
  exact Hturn.
Qed.

Lemma is_pair_run_main (steps : list (EspeakPiper.world J * string))
    (history : list pyval) :
  forallb is_pair history = true ->
  forallb is_pair (run_main rt J steps history) = true.
Proof.
  revert history. induction steps as [|[w line] steps IH]; intros history Hall.
  - exact Hall.
  - cbn [run_main].
    pose proof (is_pair_main_step w history line Hall) as Hstep.
    destruct (EspeakPiper.main_step rt J w history line)
      as [[history' running] written].
    cbn [fst] in Hstep. destruct running; [now apply IH | exact Hstep].
Qed.

(** X7.  In gemini.espeak_and_piper.py, whatever lines are typed,
    whatever files [/load] is pointed at and whatever the network does,
    a session that starts with the empty history only ever holds
    two-element lists in it; so the payload builder, which unpacks every
    entry, never raises on the history of a session. *)
Theorem session_history_always_unpacks
    (steps : list (EspeakPiper.world J * string)) (query modifier : string) :
  forallb is_pair (run_main rt J steps []) = true
  /\ exists warnings p,
       EspeakPiper._format_gemini_payload rt query (run_main rt J steps []) modifier
       = (warnings, Return p).
Proof.
  assert (Hall : forallb is_pair (run_main rt J steps []) = true)
    by now apply is_pair_run_main.
  split; [exact Hall|].
  destruct (pairs_of_is_pair _ Hall) as [pairs ->].
  destruct (espeak_piper_payload_pairs rt query pairs modifier) as [final [Heq _]].
  rewrite Heq. eauto.
Qed.

End MainLoop.

(** ** Strings without outer whitespace *)

Lemma length_lstrip (s : string) : String.length (lstrip s) <= String.length s.
Proof.
  induction s as [|c s IH]; [apply le_n|].
  cbn [lstrip]. destruct (isspace c); cbn [String.length]; lia.
Qed.

Lemma lstrip_fixed_head (s : string) :
  lstrip s = s -> s <> "" ->
  exists c t, s = String c t /\ isspace c = false.
Proof.
  destruct s as [|c t]; [contradiction|]. intros Hfix _.
  exists c, t. split; [reflexivity|].
  destruct (isspace c) eqn:Hc; [|reflexivity].
  cbn [lstrip] in Hfix. rewrite Hc in Hfix.
  pose proof (length_lstrip t) as Hlen. rewrite Hfix in Hlen.
  cbn [String.length] in Hlen. lia.
Qed.

Lemma lstrip_app_fixed (x y : string) :
  lstrip x = x -> x <> "" -> lstrip (x ++ y) = x ++ y.
Proof.
  intros Hfix Hne. destruct (lstrip_fixed_head x Hfix Hne) as [c [t [-> Hc]]].
  cbn [append lstrip]. now rewrite Hc.
Qed.

Lemma rev_string_app (a b : string) :
  rev_string (a ++ b) = rev_string b ++ rev_string a.
Proof.
  induction a as [|c a IH]; cbn [append rev_string].
  - now rewrite string_app_nil_r.
  - now rewrite IH, string_app_assoc.
Qed.

Lemma rev_string_involutive (s : string) : rev_string (rev_string s) = s.
Proof.
  induction s as [|c s IH]; [reflexivity|].
  cbn [rev_string]. rewrite rev_string_app, IH. reflexivity.
Qed.

Lemma rev_string_nonempty (s : string) : s <> "" -> rev_string s <> "".
Proof.
  intros Hne Hrev. apply Hne. rewrite <- (rev_string_involutive s), Hrev.
  reflexivity.
Qed.

Lemma rstrip_app_fixed (a s : string) :
  rstrip s = s -> s <> "" -> rstrip (a ++ s) = a ++ s.
Proof.
  unfold rstrip. intros Hfix Hne.
  assert (Hrev : lstrip (rev_string s) = rev_string s).
  { rewrite <- Hfix at 2. now rewrite rev_string_involutive. }
  rewrite rev_string_app, (lstrip_app_fixed _ _ Hrev (rev_string_nonempty s Hne)).
  now rewrite <- rev_string_app, rev_string_involutive.
Qed.

Lemma prefix_app (p x : string) : String.prefix p (p ++ x) = true.
Proof.
  induction p as [|c p IH]; cbn [append String.prefix].
  - now destruct x.
  - destruct (ascii_dec c c) as [_|Hne]; [exact IH | now elim Hne].
Qed.

Lemma prefix_app_same_length (p q x : string) :
  String.length p = String.length q ->
  String.prefix p (q ++ x) = String.eqb p q.
Proof.
  revert q. induction p as [|c p IH]; intros [|d q] Hlen; try discriminate.
  - now destruct x.
  - cbn [append String.prefix String.eqb].
    destruct (ascii_dec c d) as [->|Hne].
    + rewrite Ascii.eqb_refl. apply IH. now injection Hlen.
    + apply Ascii.eqb_neq in Hne. now rewrite Hne.
Qed.

Lemma lower_app (a b : string) : lower (a ++ b) = lower a ++ lower b.
Proof.
  induction a as [|c a IH]; [reflexivity|]. cbn [append lower]. now rewrite IH.
Qed.

Lemma break_word_app (w rest : string) :
  all_chars (fun c => negb (isspace c)) w = true ->
  break_word (w ++ " " ++ rest) = (w, " " ++ rest).
Proof.
  induction w as [|c w IH]; intros Hw.
  - reflexivity.
  - cbn [all_chars] in Hw. apply andb_prop in Hw as [Hc Hw].
    cbn [append break_word]. apply negb_true_iff in Hc. rewrite Hc.
    specialize (IH Hw). cbn [append] in IH. now rewrite IH.
Qed.

(** A command word followed by one space and an argument splits into
    the word and the argument. *)
Lemma split_command (w arg : string) :
  all_chars (fun c => negb (isspace c)) w = true -> w <> "" ->
  lstrip arg = arg -> arg <> "" ->
  split_maxsplit1 (w ++ " " ++ arg) = [w; arg].
Proof.
  intros Hw Hne Harg Hargne. unfold split_maxsplit1.
  assert (Hl : lstrip (w ++ " " ++ arg) = w ++ " " ++ arg).
  { destruct w as [|c w]; [contradiction|].
    cbn [all_chars] in Hw. apply andb_prop in Hw as [Hc _].
    apply negb_true_iff in Hc. cbn [append lstrip]. now rewrite Hc. }
  rewrite Hl.
  destruct (w ++ " " ++ arg) as [|c0 s0] eqn:Happ.
  { destruct w; [contradiction | discriminate Happ]. }
  rewrite <- Happ, (break_word_app w arg Hw).
  change (lstrip (" " ++ arg)) with (lstrip arg). rewrite Harg.
  destruct arg; [contradiction | reflexivity].
Qed.

(** ** [/save] then [/load] *)

Section SaveLoadCommands.
Context (rt : Runtime) (J : JsonFile).

Lemma valid_loaded_pairs (pairs : list (pyval * pyval)) :
  EspeakPiper.valid_loaded (PList (map pair_value pairs)) = true.
Proof.
  unfold EspeakPiper.valid_loaded.
  induction pairs as [|p pairs IH]; [reflexivity|].
  cbn [map forallb pair_value List.length Nat.eqb andb]. exact IH.
Qed.

(** X8.  In gemini.espeak_and_piper.py, for a file name without outer
    whitespace and a history of two-element lists: the line
    [/save <name>] leaves the history as it is and writes the encoded
    history to exactly that name; and, given that [json.load] gives back
    what [json.dump] wrote, once that file can be opened the line
    [/load <name>] makes the history equal to the saved one, whatever it
    was before. *)
Theorem save_command_then_load_command_restores
    (w w' : EspeakPiper.world J) (pairs : list (pyval * pyval))
    (current : list pyval) (name : string) :
  json_roundtrip J ->
  no_outer_space name ->
  let history := map pair_value pairs in
  EspeakPiper.main_step rt J w history ("/save " ++ name)
  = (history, true, Some (name, EspeakPiper.save_history J history))
  /\ (EspeakPiper.w_open w' name = Return (EspeakPiper.save_history J history) ->
      EspeakPiper.main_step rt J w' current ("/load " ++ name)
      = (history, true, None)).
Proof.
  intros Hrt [Hl [Hr Hne]] history. subst history.
  split.
  - unfold EspeakPiper.main_step.
    assert (Hstrip : strip ("/save " ++ name) = "/save " ++ name).
    { unfold strip.
      rewrite (lstrip_app_fixed "/save " name eq_refl ltac:(discriminate)).
      exact (rstrip_app_fixed "/save " name Hr Hne). }
    rewrite Hstrip, lower_app.
    change (lower "/save ") with "/save ".
    change (String.eqb ("/save " ++ name) "") with false.
    change (String.eqb ("/save " ++ lower name) "exit") with false.
    change (String.eqb ("/save " ++ lower name) "/clear") with false.
    unfold startswith. rewrite prefix_app.
    change ("/save " ++ name) with ("/save" ++ " " ++ name).
    rewrite (split_command "/save" name eq_refl ltac:(discriminate) Hl Hne).
    reflexivity.
  - intros Hopen. unfold EspeakPiper.main_step.
    assert (Hstrip : strip ("/load " ++ name) = "/load " ++ name).
    { unfold strip.
      rewrite (lstrip_app_fixed "/load " name eq_refl ltac:(discriminate)).
      exact (rstrip_app_fixed "/load " name Hr Hne). }
    rewrite Hstrip, lower_app.
    change (lower "/load ") with "/load ".
    change (String.eqb ("/load " ++ name) "") with false.
    change (String.eqb ("/load " ++ lower name) "exit") with false.
    change (String.eqb ("/load " ++ lower name) "/clear") with false.
    unfold startswith.
    rewrite (prefix_app_same_length "/save " "/load " (lower name) eq_refl).
    change (String.eqb "/save " "/load ") with false.
    rewrite prefix_app.
    change ("/load " ++ name) with ("/load" ++ " " ++ name).
    rewrite (split_command "/load" name eq_refl ltac:(discriminate) Hl Hne).
    rewrite Hopen.
    unfold EspeakPiper.load_history, EspeakPiper.save_history.
    rewrite Hrt, valid_loaded_pairs. reflexivity.
Qed.

End SaveLoadCommands.

Lemma save_command_then_load_command_restores_witness :
  EspeakPiper.main_step Demo.rt Demo.J
    (EspeakPiper.mkWorld Demo.J (Demo.net_raising (Timeout "unused")) (Some "key")
       (fun _ => Raise (OtherException "no such file")))
    (map pair_value [(PStr "q", PStr "a")]) ("/save " ++ "chat one.json")
  = (map pair_value [(PStr "q", PStr "a")], true,
     Some ("chat one.json",
           EspeakPiper.save_history Demo.J (map pair_value [(PStr "q", PStr "a")]))).
Proof.
  apply (save_command_then_load_command_restores Demo.rt Demo.J
           (EspeakPiper.mkWorld Demo.J (Demo.net_raising (Timeout "unused"))
              (Some "key") (fun _ => Raise (OtherException "no such file")))
           (EspeakPiper.mkWorld Demo.J (Demo.net_raising (Timeout "unused"))
              (Some "key") (fun _ => Raise (OtherException "no such file")))
           [(PStr "q", PStr "a")] [] "chat one.json").
  - intros v. reflexivity.
  - split; [reflexivity | split; [reflexivity | discriminate]].
Defined.

(** ** Loading a long history, and the parser of code.py *)

Lemma slice_last_map {A B : Type} (g : A -> B) (n : nat) (l : list A) :
  slice_last n (map g l) = map g (slice_last n l).
Proof.
  destruct n; [reflexivity|]. unfold slice_last.
  now rewrite length_map, skipn_map.
Qed.

(** X9.  [/load_hist] of code.py on a file that decodes to a list of
    pairs of text keeps the most recent [MAX_HISTORY] of them, in order,
    in place of the history; on a file that does not decode, or decodes
    to anything else, it leaves the history as it was. *)
Theorem load_hist_keeps_most_recent_turns
    (J : JsonFile) (current : list pyval) (f : file J) :
  (forall H, json_load J f = Return (PList (history_of H)) ->
     OldCode.load_history J current f
     = history_of (slice_last Shared.MAX_HISTORY H)
     /\ List.length (OldCode.load_history J current f) <= Shared.MAX_HISTORY)
  /\ (forall e, json_load J f = Raise e -> OldCode.load_history J current f = current)
  /\ (forall loaded, json_load J f = Return loaded ->
        OldCode.valid_loaded loaded = false ->
        OldCode.load_history J current f = current).
Proof.
  unfold OldCode.load_history. split; [|split].
  - intros H Hload. rewrite Hload.
    destruct (valid_loaded_turns H) as [_ ->].
    unfold history_of. rewrite slice_last_map. split; [reflexivity|].
    rewrite length_map. apply slice_last_at_most.
  - intros e Hload. now rewrite Hload.
  - intros loaded Hload Hinvalid. rewrite Hload.
    destruct loaded; try reflexivity. now rewrite Hinvalid.
Qed.

Lemma load_hist_keeps_most_recent_turns_witness :
  OldCode.load_history Demo.J []
    (PList (history_of (map (fun n => (str_int (Z.of_nat n), "a")) (seq 0 12))))
  = history_of (map (fun n => (str_int (Z.of_nat n), "a")) (seq 2 10)).
Proof.
  apply (proj1 (load_hist_keeps_most_recent_turns Demo.J []
                  (PList (history_of (map (fun n => (str_int (Z.of_nat n), "a"))
                                        (seq 0 12)))))
           (map (fun n => (str_int (Z.of_nat n), "a")) (seq 0 12))).
  reflexivity.
Defined.

(** X10.  The parser of code.py does not look at the prompt feedback
    once there is a candidate: for a body with no top-level error whose
    first candidate has finishReason MAX_TOKENS, it returns the
    MAX_TOKENS warning followed by the trimmed text when that text is
    not empty, and the MAX_TOKENS error when it is, whatever the prompt
    feedback says. *)
Theorem code_py_max_tokens_ignores_prompt_feedback
    (rt : Runtime) (r : response) (items : list (string * pyval))
    (candidate : pyval) (others : list pyval) (t : string) :
  json r = inl (PDict items) ->
  truthy (field "error" items) = false ->
  field "candidates" items = PList (candidate :: others) ->
  get candidate "finishReason" = Return (PStr "MAX_TOKENS") ->
  (content <- get candidate "content" ;; EspeakPiper1.extract_text content)
    = Return t ->
  OldCode._parse_gemini_response rt (inl r)
  = if String.eqb t ""
    then "Error: Candidate finished due to maximum token limit (MAX_TOKENS). No partial content extracted."
    else "Warning: MAX_TOKENS limit reached. Output may be incomplete." ++ nl
           ++ "---" ++ nl ++ t.
Proof.
  intros Hjson Herr Hcands Hfinish Htext.
  destruct (get_returns_str _ _ _ Hfinish) as [fields [-> [Hfr Htruthy]]].
  unfold OldCode._parse_gemini_response, response_json. rewrite Hjson.
  cbn [bind]. unfold OldCode.parse_body.
  rewrite !get_field in *. cbn [bind] in *. rewrite Herr, Hcands.
  change (truthy (PList (PDict fields :: others))) with true.
  cbn [negb getitem0 bind]. rewrite Htruthy. cbn [negb].
  rewrite !get_field. cbn [bind]. rewrite Hfr, Htext. cbn [bind].
  unfold OldCode.finish. cbn.
  destruct (String.eqb t ""); reflexivity.
Qed.

Lemma code_py_max_tokens_ignores_prompt_feedback_witness :
  OldCode._parse_gemini_response Demo.rt
    (inl (Demo.ok_response
            (PDict (("promptFeedback", PDict [("blockReason", PStr "SAFETY")])
                      :: Demo.candidate_body "MAX_TOKENS" "partial"))))
  = "Warning: MAX_TOKENS limit reached. Output may be incomplete." ++ nl
      ++ "---" ++ nl ++ "partial".
Proof.
  apply (code_py_max_tokens_ignores_prompt_feedback Demo.rt
           (Demo.ok_response
              (PDict (("promptFeedback", PDict [("blockReason", PStr "SAFETY")])
                        :: Demo.candidate_body "MAX_TOKENS" "partial")))
           (("promptFeedback", PDict [("blockReason", PStr "SAFETY")])
              :: Demo.candidate_body "MAX_TOKENS" "partial")
           (PDict [("content", PDict [("parts", PList [PDict [("text", PStr "partial")]]);
                                      ("role", PStr "model")]);
                   ("finishReason", PStr "MAX_TOKENS")])
           [] "partial").
  - reflexivity.
  - reflexivity.
  - reflexivity.
  - reflexivity.
  - cbn [get get_default lookup String.eqb Ascii.eqb Bool.eqb bind].
    apply (extract_text_of_parts _ ["partial"]); [discriminate | reflexivity].
Defined.

(** ** gemini.espeak.py *)

(** X15.  In gemini.espeak.py, with the API key set and a history of
    turns: an answer with status 200 whose body is a JSON object without
    [candidates] (the answer to a blocked prompt) makes
    [get_gemini_response] raise [KeyError], and the loop of [main],
    which has no handler, ends with it. *)
Theorem espeak_answer_without_candidates_raises
    (rt : Runtime) (net : network) (api_key query modifier : string)
    (H : list turn) (r : response) (items : list (string * pyval)) :
  api_key <> "" ->
  (forall rq, net rq = Return r) ->
  status_code r = 200%Z ->
  json r = inl (PDict items) ->
  lookup "candidates" items = None ->
  Espeak.get_gemini_response rt net (Some api_key) query (history_of H) modifier
  = Raise KeyError
  /\ Espeak.chat_turn rt net (Some api_key) modifier (history_of H) query
     = Raise KeyError.
Proof.
  intros Hkey Hnet Hstatus Hjson Hmissing.
  assert (Hget : Espeak.get_gemini_response rt net (Some api_key) query
                   (history_of H) modifier = Raise KeyError).
  { unfold Espeak.get_gemini_response. apply String.eqb_neq in Hkey.
    rewrite Hkey. destruct (history_lines_espeak rt H) as [ls ->].
    cbn [bind]. rewrite Hnet. cbn [bind]. rewrite Hstatus. cbn [Z.eqb Pos.eqb].
    unfold response_json. rewrite Hjson. cbn [bind getitem].
    now rewrite Hmissing. }
  split; [exact Hget|]. unfold Espeak.chat_turn. now rewrite Hget.
Qed.

Lemma espeak_answer_without_candidates_raises_witness :
  Espeak.chat_turn Demo.rt
    (Demo.net_answering
       (Demo.ok_response (PDict [("promptFeedback",
                                  PDict [("blockReason", PStr "SAFETY")])])))
    (Some "key") "modifier" (history_of [("q", "a")]) "hi"
  = Raise KeyError.
Proof.
  apply (espeak_answer_without_candidates_raises Demo.rt
           (Demo.net_answering
              (Demo.ok_response (PDict [("promptFeedback",
                                         PDict [("blockReason", PStr "SAFETY")])])))
           "key" "hi" "modifier" [("q", "a")]
           (Demo.ok_response (PDict [("promptFeedback",
                                      PDict [("blockReason", PStr "SAFETY")])]))
           [("promptFeedback", PDict [("blockReason", PStr "SAFETY")])]);
    try reflexivity.
  discriminate.
Defined.

(** ** The loop of gen_ai_console/app.py *)

Section AppLoop.
Context (rt : Runtime).

Lemma getitem0_falsy (v : pyval) (x : pyval) :
  truthy v = false -> getitem0 v <> Return x.
Proof.
  destruct v as [| | | |s|l|d]; cbn; intros Hfalsy; try discriminate.
  - destruct s; discriminate.
  - destruct l; discriminate.
Qed.

Lemma generate_text_failure_is_error
    (net : network) (api_key model_name prompt : string) (history : list pyval) :
  exchange_fails net (GeminiHandler.api_request api_key model_name prompt history) ->
  exists s,
    GeminiHandler.generate_text rt net api_key model_name prompt history = Return s
    /\ startswith s "Error:" = true.
Proof.
  intros Hfail. unfold GeminiHandler.generate_text.
  destruct (GeminiHandler.try_block rt net api_key model_name prompt history)
    as [s|e] eqn:Etry.
  2:{ eexists. split; [reflexivity | apply handler_is_error]. }
  exists s. split; [reflexivity|].
  unfold GeminiHandler.try_block in Etry.
  destruct Hfail as [[e Hnet] | [r [Hnet Hbad]]]; rewrite Hnet in Etry;
    cbn [bind] in Etry; [discriminate|].
  destruct Hbad as [Hst | [[msg Hjson] | [items [Hjson Hcands]]]].
  - rewrite (raise_for_status_error rt r Hst) in Etry. discriminate.
  - destruct (raise_for_status rt r); cbn [bind] in Etry; [|discriminate].
    unfold response_json in Etry. rewrite Hjson in Etry. discriminate.
  - destruct (raise_for_status rt r); cbn [bind] in Etry; [|discriminate].
    unfold response_json in Etry. rewrite Hjson in Etry. cbn [bind] in Etry.
    destruct (read_body_cases rt (PDict items) s Etry) as [Herr|Hok];
      [exact Herr|].
    destruct Hok as (candidates & candidate & _ & _ & _ & _ & Hget & H0 & _).
    rewrite get_field in Hget. injection Hget as <-.
    exfalso. exact (getitem0_falsy _ candidate Hcands H0).
Qed.

(** X12.  In gen_ai_console/app.py a failed exchange is never stored:
    for a line that is neither blank nor [exit], when [requests.post]
    raises (any exception), or the status is an HTTP error, or the body
    does not decode, or it holds no candidates, the pass leaves the
    history as it was and the loop goes on. *)
Theorem app_failed_exchange_is_not_stored
    (net : network) (api_key model_name : string) (history : list pyval)
    (line : string) :
  strip line <> "" ->
  lower (strip line) <> "exit" ->
  exchange_fails net
    (GeminiHandler.api_request api_key model_name (strip line) history) ->
  App.main_step rt net api_key model_name history line = (history, true).
Proof.
  intros Hblank Hexit Hfail. unfold App.main_step.
  apply String.eqb_neq in Hblank. apply String.eqb_neq in Hexit.
  rewrite Hexit, Hblank.
  destruct (generate_text_failure_is_error net api_key model_name (strip line)
              history Hfail) as [s [-> Hs]].
  unfold App.update_history. now rewrite Hs.
Qed.

Lemma turn_entries_app (H H' : list turn) :
  turn_entries (H ++ H') = (turn_entries H ++ turn_entries H')%list.
Proof.
  unfold turn_entries. apply flat_map_app.
Qed.

Lemma app_history_update (history : list pyval) (user_input response_text : string) :
  app_history history ->
  app_history (App.update_history history user_input response_text).
Proof.
  intros [turns [-> [Hlen Hok]]]. unfold App.update_history.
  destruct (startswith response_text "Error:") eqn:Hs; cbn [negb].
  { exists turns. auto. }
  change [content_entry "user" (PStr user_input);
          content_entry "model" (PStr response_text)]
    with (turn_entries [(user_input, response_text)]).
  rewrite <- turn_entries_app, length_turn_entries, length_app. cbn [List.length].
  assert (Hok' : Forall (fun t => startswith (snd t) "Error:" = false)
                   (turns ++ [(user_input, response_text)])).
  { apply Forall_app. split; [exact Hok|]. constructor; [exact Hs | constructor]. }
  destruct (10 <? 2 * (List.length turns + 1))%nat eqn:Hfull.
  - apply Nat.ltb_lt in Hfull.
    destruct turns as [|t turns]; [cbn in Hfull; lia|].
    exists (turns ++ [(user_input, response_text)])%list. split; [|split].
    + cbn [app]. unfold slice_last.
      rewrite length_turn_entries. cbn [List.length] in *.
      rewrite length_app. cbn [List.length].
      replace (2 * S (List.length turns + 1) - 10) with 2 by lia.
      reflexivity.
    + rewrite length_app. cbn [List.length] in *. lia.
    + now inversion Hok'.
  - apply Nat.ltb_ge in Hfull.
    exists (turns ++ [(user_input, response_text)])%list. split; [reflexivity|].
    split; [|exact Hok']. rewrite length_app. cbn [List.length]. lia.
Qed.

Lemma app_history_step (net : network) (api_key model_name : string)
    (history : list pyval) (line : string) :
  app_history history ->
  app_history (fst (App.main_step rt net api_key model_name history line)).
Proof.
  intros Hinv. unfold App.main_step.
  destruct (String.eqb (lower (strip line)) "exit"); [exact Hinv|].
  destruct (String.eqb (strip line) ""); [exact Hinv|].
  destruct (GeminiHandler.generate_text rt net api_key model_name (strip line)
              history) as [response_text|e]; [|exact Hinv].
  now apply app_history_update.
Qed.

(** X11.  In gen_ai_console/app.py, whatever lines are typed and
    whatever the network does, the history of a session that starts
    empty is always made of the user and model entries of at most five
    turns, in order, and no stored response begins with [Error:]; so
    the contents of every request are those entries followed by one
    user entry that holds the prompt. *)
Theorem app_history_alternates_within_five_turns
    (api_key model_name prompt : string) (steps : list (network * string)) :
  exists turns : list turn,
    run_app rt api_key model_name steps [] = turn_entries turns
    /\ List.length turns <= 5
    /\ Forall (fun t => startswith (snd t) "Error:" = false) turns
    /\ req_json (GeminiHandler.api_request api_key model_name prompt
                    (run_app rt api_key model_name steps []))
       = PDict [("contents",
                 PList (turn_entries turns ++ [content_entry "user" (PStr prompt)]));
                ("generationConfig",
                 PDict [("temperature", PFloat 6 (-1));
                        ("maxOutputTokens", PInt 2048)])].
Proof.
  assert (Hrun : forall steps history,
             app_history history ->
             app_history (run_app rt api_key model_name steps history)).
  { clear steps. induction steps as [|[net line] steps IH]; intros history Hinv.
    - exact Hinv.
    - cbn [run_app].
      pose proof (app_history_step net api_key model_name history line Hinv)
        as Hstep.
      destruct (App.main_step rt net api_key model_name history line)
        as [history' running].
      cbn [fst] in Hstep. destruct running; [now apply IH | exact Hstep]. }
  destruct (Hrun steps []) as [turns [Heq [Hlen Hok]]].
  { exists []. repeat split; [apply Nat.le_0_l | constructor]. }
  exists turns. rewrite Heq. repeat split; assumption || reflexivity.
Qed.

End AppLoop.

Lemma app_failed_exchange_is_not_stored_witness :
  App.main_step Demo.rt (Demo.net_raising (ConnectionError "connection refused"))
    "key" "model" (turn_entries [("q", "a")]) " hello "
  = (turn_entries [("q", "a")], true).
Proof.
  apply (app_failed_exchange_is_not_stored Demo.rt
           (Demo.net_raising (ConnectionError "connection refused"))
           "key" "model" (turn_entries [("q", "a")]) " hello ").
  - discriminate.
  - discriminate.
  - left. exists (ConnectionError "connection refused"). reflexivity.
Defined.

(** ** Cleaning text for speech *)

Lemma all_chars_app (p : ascii -> bool) (a b : string) :
  all_chars p (a ++ b) = all_chars p a && all_chars p b.
Proof.
  induction a as [|c a IH]; [reflexivity|].
  cbn [append all_chars]. now rewrite IH, andb_assoc.
Qed.

Lemma all_chars_remove_chars (class : ascii -> bool) (s : string) :
  all_chars (fun c => negb (class c)) (remove_chars class s) = true.
Proof.
  induction s as [|c s IH]; [reflexivity|].
  cbn [remove_chars]. destruct (class c) eqn:Hc; [exact IH|].
  cbn [all_chars]. now rewrite Hc, IH.
Qed.

Lemma remove_chars_fixed (class : ascii -> bool) (s : string) :
  all_chars (fun c => negb (class c)) s = true -> remove_chars class s = s.
Proof.
  induction s as [|c s IH]; [reflexivity|].
  cbn [all_chars remove_chars]. intros Hall.
  apply andb_prop in Hall as [Hc Hs]. apply negb_true_iff in Hc.
  now rewrite Hc, (IH Hs).
Qed.

Lemma all_chars_sub_spaces (p : ascii -> bool) (b : bool) (s : string) :
  p " "%char = true ->
  all_chars p s = true -> all_chars p (sub_spaces_from b s) = true.
Proof.
  intros Hspace. revert b. induction s as [|c s IH]; intros b Hall;
    [reflexivity|].
  cbn [all_chars] in Hall. apply andb_prop in Hall as [Hc Hs].
  cbn [sub_spaces_from]. destruct (isspace c).
  - destruct b; [now apply IH|]. cbn [all_chars]. now rewrite Hspace, IH.
  - cbn [all_chars]. now rewrite Hc, IH.
Qed.

Lemma lstrip_decompose (s : string) :
  exists w, s = w ++ lstrip s.
Proof.
  induction s as [|c s [w IH]]; [now exists ""|].
  cbn [lstrip]. destruct (isspace c).
  - exists (String c w). cbn [append]. now rewrite <- IH.
  - now exists "".
Qed.

Lemma rstrip_decompose (s : string) :
  exists w, s = rstrip s ++ w.
Proof.
  unfold rstrip. destruct (lstrip_decompose (rev_string s)) as [w Hw].
  exists (rev_string w).
  rewrite <- rev_string_app, <- Hw. now rewrite rev_string_involutive.
Qed.

Lemma strip_decompose (s : string) :
  exists w1 w2, s = w1 ++ strip s ++ w2.
Proof.
  unfold strip. destruct (lstrip_decompose s) as [w1 H1].
  destruct (rstrip_decompose (lstrip s)) as [w2 H2].
  exists w1, w2. now rewrite <- H2.
Qed.

Lemma all_chars_strip (p : ascii -> bool) (s : string) :
  all_chars p s = true -> all_chars p (strip s) = true.
Proof.
  destruct (strip_decompose s) as [w1 [w2 Hs]]. rewrite Hs at 1.
  rewrite !all_chars_app. intros H.
  apply andb_prop in H as [_ H]. now apply andb_prop in H as [H _].
Qed.

Lemma lstrip_idempotent (s : string) : lstrip (lstrip s) = lstrip s.
Proof.
  induction s as [|c s IH]; [reflexivity|].
  cbn [lstrip]. destruct (isspace c) eqn:Hc; [exact IH|].
  cbn [lstrip]. now rewrite Hc.
Qed.

Lemma rstrip_idempotent (s : string) : rstrip (rstrip s) = rstrip s.
Proof.
  unfold rstrip. now rewrite rev_string_involutive, lstrip_idempotent.
Qed.

Lemma lstrip_rstrip (u : string) : lstrip u = u -> lstrip (rstrip u) = rstrip u.
Proof.
  intros Hu. destruct (rstrip_decompose u) as [w Hw].
  destruct (rstrip u) as [|c z] eqn:Hz; [reflexivity|].
  assert (Hne : u <> "") by (rewrite Hw; discriminate).
  destruct (lstrip_fixed_head u Hu Hne) as [c' [t [Hu' Hc']]].
  rewrite Hu' in Hw. cbn [append] in Hw. injection Hw as -> _.
  cbn [lstrip]. now rewrite Hc'.
Qed.

Lemma strip_idempotent (s : string) : strip (strip s) = strip s.
Proof.
  unfold strip.
  rewrite (lstrip_rstrip (lstrip s) (lstrip_idempotent s)).
  apply rstrip_idempotent.
Qed.

Lemma single_spaced_app (a b : string) :
  single_spaced (a ++ b) = true ->
  single_spaced a = true /\ single_spaced b = true.
Proof.
  induction a as [|c a IH]; intros H; [now split|].
  cbn [append single_spaced] in *. apply andb_prop in H as [Hc Hrest].
  destruct (IH Hrest) as [Ha Hb]. split; [|exact Hb].
  rewrite Ha, andb_true_r. destruct (isspace c); [|reflexivity].
  apply andb_prop in Hc as [Heq Hnext]. rewrite Heq. cbn [andb].
  destruct a; [reflexivity | exact Hnext].
Qed.

Lemma single_spaced_sub_spaces (b : bool) (s : string) :
  single_spaced (sub_spaces_from b s) = true
  /\ (b = true -> starts_with_space (sub_spaces_from b s) = false).
Proof.
  revert b. induction s as [|c s IH]; intros b; [now split|].
  cbn [sub_spaces_from]. destruct (isspace c) eqn:Hc.
  - destruct b.
    + apply IH.
    + destruct (IH true) as [Hs Hhead]. split; [|discriminate].
      cbn [single_spaced]. change (isspace " ") with true.
      now rewrite (Hhead eq_refl), Hs.
  - destruct (IH false) as [Hs _]. split.
    + cbn [single_spaced]. now rewrite Hc, Hs.
    + intros _. cbn [starts_with_space]. exact Hc.
Qed.

Lemma sub_spaces_fixed (b : bool) (s : string) :
  single_spaced s = true ->
  (b = true -> starts_with_space s = false) ->
  sub_spaces_from b s = s.
Proof.
  revert b. induction s as [|c s IH]; intros b Hs Hhead; [reflexivity|].
  cbn [single_spaced] in Hs. apply andb_prop in Hs as [Hc Hrest].
  cbn [sub_spaces_from]. destruct (isspace c) eqn:Hsp.
  - apply andb_prop in Hc as [Heq Hnext]. apply Ascii.eqb_eq in Heq. subst c.
    destruct b.
    + cbn [starts_with_space] in Hhead. rewrite Hsp in Hhead.
      discriminate (Hhead eq_refl).
    + apply negb_true_iff in Hnext. now rewrite (IH true Hrest (fun _ => Hnext)).
  - now rewrite (IH false Hrest ltac:(discriminate)).
Qed.

(** X13.  [TTSEngine.clean_text] of gen_ai_console/tts_player.py returns
    a text that holds none of the characters it removes (the quotes and
    the shell and markdown characters of its class), in which every
    whitespace is a single plain space, and that neither starts nor ends
    with whitespace; cleaning a cleaned text changes nothing. *)
Theorem clean_text_is_normal_and_idempotent (text : string) :
  let cleaned := TtsPlayer.clean_text text in
  all_chars (fun c => negb (TtsPlayer.removed_char c)) cleaned = true
  /\ single_spaced cleaned = true
  /\ strip cleaned = cleaned
  /\ TtsPlayer.clean_text cleaned = cleaned.
Proof.
  intros cleaned. subst cleaned. unfold TtsPlayer.clean_text.
  set (x := remove_chars TtsPlayer.removed_char text).
  assert (Hx : all_chars (fun c => negb (TtsPlayer.removed_char c))
                 (strip (sub_spaces x)) = true).
  { apply all_chars_strip, all_chars_sub_spaces; [reflexivity|].
    apply all_chars_remove_chars. }
  assert (Hs : single_spaced (strip (sub_spaces x)) = true).
  { destruct (strip_decompose (sub_spaces x)) as [w1 [w2 Hdec]].
    pose proof (proj1 (single_spaced_sub_spaces false x)) as Hsub.
    fold (sub_spaces x) in Hsub. rewrite Hdec in Hsub.
    apply single_spaced_app in Hsub as [_ Hsub].
    now apply single_spaced_app in Hsub as [Hsub _]. }
  split; [exact Hx|]. split; [exact Hs|]. split; [apply strip_idempotent|].
  rewrite (remove_chars_fixed _ _ Hx).
  unfold sub_spaces at 1.
  rewrite (sub_spaces_fixed false _ Hs ltac:(discriminate)).
  apply strip_idempotent.
Qed.

Lemma all_chars_impl (p q : ascii -> bool) (s : string) :
  (forall c, p c = true -> q c = true) ->
  all_chars p s = true -> all_chars q s = true.
Proof.
  intros Hpq. induction s as [|c s IH]; [reflexivity|].
  cbn [all_chars]. intros H. apply andb_prop in H as [Hc Hs].
  now rewrite (Hpq c Hc), (IH Hs).
Qed.

Lemma replace_absent (c : ascii) (old new s : string) :
  all_chars (fun d => negb (Ascii.eqb d c)) s = true ->
  replace (String c old) new s = s.
Proof.
  unfold replace. induction s as [|d s IH]; [reflexivity|].
  cbn [all_chars replace_from String.prefix]. intros H.
  apply andb_prop in H as [Hd Hs]. apply negb_true_iff in Hd.
  destruct (ascii_dec c d) as [->|_].
  - now rewrite Ascii.eqb_refl in Hd.
  - now rewrite (IH Hs).
Qed.

Lemma all_chars_replace_char (p : ascii -> bool) (q : ascii) (new s : string) :
  all_chars p new = true ->
  all_chars (fun d => Ascii.eqb d q || p d) s = true ->
  all_chars p (replace (String q "") new s) = true.
Proof.
  intros Hnew. unfold replace. induction s as [|d s IH]; [reflexivity|].
  cbn [all_chars replace_from String.prefix String.length Nat.sub]. intros H.
  apply andb_prop in H as [Hd Hs].
  destruct (ascii_dec q d) as [->|Hne].
  - replace (String.prefix "" s) with true by now destruct s.
    now rewrite all_chars_app, Hnew, (IH Hs).
  - cbn [all_chars]. rewrite (IH Hs), andb_true_r.
    destruct (Ascii.eqb d q) eqn:Heq; [|exact Hd].
    apply Ascii.eqb_eq in Heq. now elim Hne.
Qed.

(** X14.  [text_to_speech] of gemini.espeak_and_piper.py cleans the
    text into the text without the characters [*], [_], [`], [#] and
    [~] and with an apostrophe for each double quote (the four [replace]
    calls in between find nothing left to replace); so what it hands to
    [espeak-ng], as the last argument, holds none of those characters
    and is not blank, and when the cleaned text is blank it runs
    nothing. *)
Theorem espeak_text_has_no_markdown_or_double_quote
    (text voice : string) (speed pitch : Z) :
  let cleaned := EspeakPiper.clean_for_speech text in
  cleaned = replace dquote "'" (remove_chars EspeakPiper.markdown_char text)
  /\ all_chars (fun c => negb (EspeakPiper.markdown_char c)
                         && negb (char_in dquote c)) cleaned = true
  /\ (forall argv,
        EspeakPiper.espeak_command text voice speed pitch = Some argv ->
        argv = ["espeak-ng"; "-v"; voice; "-s"; str_int speed; "-p"; str_int pitch;
                cleaned]
        /\ strip cleaned <> "")
  /\ (strip cleaned = "" ->
      EspeakPiper.espeak_command text voice speed pitch = None).
Proof.
  intros cleaned.
  pose proof (all_chars_remove_chars EspeakPiper.markdown_char text) as Hx.
  set (x := remove_chars EspeakPiper.markdown_char text) in *.
  assert (Hstar : forall c, char_in "*_`#~" c = false ->
                            Ascii.eqb c "*" = false /\ Ascii.eqb c "_" = false).
  { intros c Hc. cbn [char_in] in Hc.
    apply orb_false_iff in Hc as [H1 Hc].
    apply orb_false_iff in Hc as [H2 _]. now split. }
  assert (Hclean : cleaned = replace dquote "'" x).
  { subst cleaned. unfold EspeakPiper.clean_for_speech. fold x.
    assert (H1 : all_chars (fun d => negb (Ascii.eqb d "*")) x = true).
    { apply (all_chars_impl (fun c => negb (EspeakPiper.markdown_char c)));
        [|exact Hx].
      intros c Hc. apply negb_true_iff in Hc.
      now rewrite (proj1 (Hstar c Hc)). }
    assert (H2 : all_chars (fun d => negb (Ascii.eqb d "_")) x = true).
    { apply (all_chars_impl (fun c => negb (EspeakPiper.markdown_char c)));
        [|exact Hx].
      intros c Hc. apply negb_true_iff in Hc.
      now rewrite (proj2 (Hstar c Hc)). }
    now rewrite (replace_absent "*" "*" "" x H1), (replace_absent "_" "_" "" x H2),
      (replace_absent "*" "" "" x H1), (replace_absent "_" "" "" x H2). }
  assert (Hall : all_chars (fun c => negb (EspeakPiper.markdown_char c)
                                     && negb (char_in dquote c)) cleaned = true).
  { rewrite Hclean. apply all_chars_replace_char; [reflexivity|].
    apply (all_chars_impl (fun c => negb (EspeakPiper.markdown_char c)));
      [|exact Hx].
    intros c Hc. rewrite Hc. cbn [andb char_in dquote].
    destruct (Ascii.eqb c (ascii_of_nat 34)); reflexivity. }
  split; [exact Hclean|]. split; [exact Hall|].
  unfold EspeakPiper.espeak_command. fold cleaned. split.
  - intros argv Hrun. destruct (String.eqb text ""); [discriminate|].
    destruct (String.eqb_spec (strip cleaned) "") as [|Hne]; [discriminate|].
    injection Hrun as <-. now split.
  - intros Hblank. destruct (String.eqb text ""); [reflexivity|].
    now rewrite Hblank.
Qed.

Lemma espeak_text_has_no_markdown_or_double_quote_witness :
  EspeakPiper.espeak_command "  **  " "en-gb" 160 20 = None.
Proof.
  apply (proj2 (proj2 (proj2 (espeak_text_has_no_markdown_or_double_quote
                                "  **  " "en-gb" 160 20)))).
  reflexivity.
Defined.

(** ** What the parser of gemini.espeak_and_piper1.py can return *)

Section ParserResults.
Context (rt : Runtime).

Lemma finish_cases (candidate finish_reason safety_ratings : pyval) (text : string) :
  let s := EspeakPiper1.finish rt candidate finish_reason safety_ratings text in
  startswith s "Error" = true \/ startswith s "Warning:" = true
  \/ (text <> ""
      /\ (truthy finish_reason = false \/ eq_str finish_reason "STOP" = true
          \/ eq_str finish_reason "FINISH_REASON_UNSPECIFIED" = true)
      /\ s = Shared.clean_fences text).
Proof.
  intros s. subst s. unfold EspeakPiper1.finish.
  destruct (truthy finish_reason) eqn:Htr; cbn [andb].
  - destruct (eq_str finish_reason "STOP") eqn:Hstop; cbn [orb negb andb].
    + destruct (String.eqb_spec text "") as [->|Hne]; cbn [negb].
      * right. left. reflexivity.
      * right. right. auto.
    + destruct (eq_str finish_reason "FINISH_REASON_UNSPECIFIED") eqn:Hun;
        cbn [negb].
      * destruct (String.eqb_spec text "") as [->|Hne]; cbn [negb].
        -- left. reflexivity.
        -- right. right. auto.
      * destruct (eq_str finish_reason "MAX_TOKENS");
          [|destruct (eq_str finish_reason "SAFETY")];
          destruct (String.eqb text ""); cbn [negb];
          (left; reflexivity) || (right; left; reflexivity).
  - destruct (eq_str finish_reason "STOP") eqn:Hstop; cbn [negb andb].
    + destruct (String.eqb_spec text "") as [->|Hne]; cbn [negb].
      * right. left. reflexivity.
      * right. right. auto.
    + destruct (String.eqb_spec text "") as [->|Hne]; cbn [negb andb].
      * left. reflexivity.
      * right. right. auto.
Qed.

(** X2.  Whatever the response, the parser of
    gemini.espeak_and_piper1.py returns a string that begins with
    [Error] or with [Warning:], unless the body decodes, the text of its
    first candidate is extracted and not empty, and the finish reason is
    absent, STOP or the unspecified one; then it returns that text after
    the fence removal.  The text of a truncated or filtered answer never
    comes back without its warning. *)
Theorem old_parser_returns_error_warning_or_finished_text (r : response) :
  let s := EspeakPiper1._parse_gemini_response rt (inl r) in
  startswith s "Error" = true \/ startswith s "Warning:" = true
  \/ exists body candidates candidate finish_reason text,
       json r = inl body
       /\ get body "candidates" = Return candidates
       /\ getitem0 candidates = Return candidate
       /\ get candidate "finishReason" = Return finish_reason
       /\ (content <- get candidate "content" ;; EspeakPiper1.extract_text content)
          = Return text
       /\ text <> ""
       /\ (truthy finish_reason = false \/ eq_str finish_reason "STOP" = true
           \/ eq_str finish_reason "FINISH_REASON_UNSPECIFIED" = true)
       /\ s = Shared.clean_fences text.
Proof.
  intros s. subst s. unfold EspeakPiper1._parse_gemini_response, response_json.
  destruct (json r) as [body|msg] eqn:Hjson; cbn [bind try_except];
    [|left; reflexivity].
  destruct (EspeakPiper1.parse_body rt body) as [s|e] eqn:Hbody;
    [|left; destruct e; reflexivity].
  unfold EspeakPiper1.parse_body in Hbody.
  destruct (get body "error") as [api_error|e]; cbn [bind] in Hbody;
    [|discriminate].
  destruct (truthy api_error).
  { destruct (get_default api_error "message" (PStr "Unknown API error"));
      cbn [bind] in Hbody; [|discriminate].
    destruct (get_default api_error "code" (PStr "N/A"));
      cbn [bind] in Hbody; [|discriminate].
    injection Hbody as <-. left. reflexivity. }
  destruct (EspeakPiper1.prompt_block rt body) as [[err|]|e] eqn:Hblock;
    cbn [bind] in Hbody; [| |discriminate].
  { injection Hbody as <-. left.
    unfold EspeakPiper1.prompt_block in Hblock.
    destruct (get body "promptFeedback") as [pf|e]; cbn [bind] in Hblock;
      [|discriminate].
    destruct (truthy pf); [|discriminate].
    destruct (get pf "blockReason") as [reason|e]; cbn [bind] in Hblock;
      [|discriminate].
    destruct (truthy reason && _); [|discriminate].
    destruct (get pf "safetyRatings"); cbn [bind] in Hblock; [|discriminate].
    injection Hblock as <-. reflexivity. }
  destruct (get body "candidates") as [candidates|e] eqn:Hcands;
    cbn [bind] in Hbody; [|discriminate].
  destruct (truthy candidates); cbn [negb] in Hbody;
    [|injection Hbody as <-; left; reflexivity].
  destruct (getitem0 candidates) as [candidate|e] eqn:H0; cbn [bind] in Hbody;
    [|discriminate].
  destruct (truthy candidate); cbn [negb] in Hbody;
    [|injection Hbody as <-; left; reflexivity].
  destruct (get candidate "finishReason") as [finish_reason|e] eqn:Hfr;
    cbn [bind] in Hbody; [|discriminate].
  destruct (get candidate "safetyRatings") as [safety_ratings|e];
    cbn [bind] in Hbody; [|discriminate].
  destruct (get candidate "content") as [content|e] eqn:Hcontent;
    cbn [bind] in Hbody; [|discriminate].
  destruct (EspeakPiper1.extract_text content) as [text|e] eqn:Htext;
    cbn [bind] in Hbody; [|discriminate].
  injection Hbody as <-.
  destruct (finish_cases candidate finish_reason safety_ratings text)
    as [Herr | [Hwarn | [Hne [Hfinish Heq]]]]; [now left | now right; left |].
  right. right.
  exists body, candidates, candidate, finish_reason, text.
  repeat split; try assumption.
  now rewrite Hcontent.
Qed.

End ParserResults.

(** ** Fenced blocks in general *)

Lemma all_chars_rev_string (p : ascii -> bool) (s : string) :
  all_chars p (rev_string s) = all_chars p s.
Proof.
  induction s as [|c s IH]; [reflexivity|].
  cbn [rev_string all_chars]. rewrite all_chars_app, IH. cbn [all_chars].
  now rewrite andb_true_r, andb_comm.
Qed.

Lemma lstrip_no_space (s : string) :
  all_chars (fun c => negb (isspace c)) s = true -> lstrip s = s.
Proof.
  destruct s as [|c s]; [reflexivity|]. cbn [all_chars lstrip]. intros H.
  apply andb_prop in H as [Hc _]. apply negb_true_iff in Hc. now rewrite Hc.
Qed.

Lemma strip_no_space (s : string) :
  all_chars (fun c => negb (isspace c)) s = true -> strip s = s.
Proof.
  intros H. unfold strip, rstrip. rewrite (lstrip_no_space s H).
  rewrite lstrip_no_space; [apply rev_string_involutive|].
  now rewrite all_chars_rev_string.
Qed.

Lemma linebreak_is_space (c : ascii) : is_linebreak c = true -> isspace c = true.
Proof.
  destruct c as [[|] [|] [|] [|] [|] [|] [|] [|]]; vm_compute; intros H;
    first [reflexivity | discriminate H].
Qed.

Lemma CR_is_linebreak (c : ascii) : is_CR c = true -> is_linebreak c = true.
Proof.
  unfold is_CR, is_linebreak. intros H. apply Nat.eqb_eq in H. now rewrite H.
Qed.

(** A line without line breaks, followed by a line feed, is the next
    line [splitlines] finds. *)
Lemma splitlines_from_line (l cur rest : string) :
  all_chars (fun c => negb (is_linebreak c)) l = true ->
  splitlines_from cur (l ++ nl ++ rest) = (cur ++ l) :: splitlines_from "" rest.
Proof.
  revert cur. induction l as [|c l IH]; intros cur Hl.
  - rewrite string_app_nil_r. reflexivity.
  - cbn [all_chars] in Hl. apply andb_prop in Hl as [Hc Hl].
    apply negb_true_iff in Hc. cbn [append splitlines_from].
    destruct (is_CR c) eqn:Hcr.
    { apply CR_is_linebreak in Hcr. congruence. }
    rewrite Hc. specialize (IH (cur ++ String c "") Hl). cbn [append] in IH.
    rewrite IH, string_app_assoc. reflexivity.
Qed.

Lemma splitlines_from_last (l cur : string) :
  all_chars (fun c => negb (is_linebreak c)) l = true -> l <> "" ->
  splitlines_from cur l = [cur ++ l].
Proof.
  revert cur. induction l as [|c l IH]; intros cur Hl Hne; [contradiction|].
  cbn [all_chars] in Hl. apply andb_prop in Hl as [Hc Hl].
  apply negb_true_iff in Hc. cbn [splitlines_from].
  destruct (is_CR c) eqn:Hcr.
  { apply CR_is_linebreak in Hcr. congruence. }
  rewrite Hc. destruct l as [|d l].
  - cbn [splitlines_from]. destruct (String.eqb_spec (cur ++ String c "") "") as [E|_].
    + destruct cur; discriminate E.
    + reflexivity.
  - rewrite (IH (cur ++ String c "") Hl ltac:(discriminate)).
    now rewrite string_app_assoc.
Qed.

Lemma splitlines_block (body : list string) (last : string) :
  body <> [] ->
  Forall (fun l => all_chars (fun c => negb (is_linebreak c)) l = true) body ->
  all_chars (fun c => negb (is_linebreak c)) last = true -> last <> "" ->
  splitlines_from "" (join nl body ++ nl ++ last) = (body ++ [last])%list.
Proof.
  intros Hne Hbody Hlast Hlastne.
  induction body as [|l body IH]; [contradiction|].
  inversion Hbody as [|? ? Hl Hrest]; subst.
  destruct body as [|l' body].
  - cbn [join String.concat app].
    rewrite (splitlines_from_line l "" last Hl).
    now rewrite (splitlines_from_last last "" Hlast Hlastne).
  - unfold join in *. cbn [String.concat] in *. rewrite !string_app_assoc.
    rewrite (splitlines_from_line l "" _ Hl). cbn [app append].
    f_equal. apply IH; [discriminate | exact Hrest].
Qed.

Lemma split_no_space (s cur : string) :
  all_chars (fun c => negb (isspace c)) s = true ->
  (List.length (split_from cur s) <= 1)%nat.
Proof.
  revert cur. induction s as [|c s IH]; intros cur Hs.
  - cbn [split_from]. destruct (String.eqb cur ""); cbn; lia.
  - cbn [all_chars] in Hs. apply andb_prop in Hs as [Hc Hs].
    apply negb_true_iff in Hc. cbn [split_from]. rewrite Hc. now apply IH.
Qed.

Lemma substring_all (s : string) : substring 0 (String.length s) s = s.
Proof.
  induction s as [|c s IH]; [reflexivity|].
  cbn [String.length substring]. now rewrite IH.
Qed.

(** X16.  The code cleaning of the old scripts unwraps every fenced
    block: for a language tag without whitespace (possibly empty) and
    one or more lines without line breaks, the text made of the opening
    fence with the tag, the lines and the closing fence comes back as
    the lines alone, joined as they were and trimmed. *)
Theorem fenced_block_is_unwrapped (tag : string) (body : list string) :
  all_chars (fun c => negb (isspace c)) tag = true ->
  body <> [] ->
  Forall (fun l => all_chars (fun c => negb (is_linebreak c)) l = true) body ->
  Shared.clean_fences ("```" ++ tag ++ nl ++ join nl body ++ nl ++ "```")
  = strip (join nl body).
Proof.
  intros Htag Hne Hbody.
  assert (Hfirst_space : all_chars (fun c => negb (isspace c)) ("```" ++ tag) = true).
  { rewrite all_chars_app, Htag. reflexivity. }
  assert (Hfirst : all_chars (fun c => negb (is_linebreak c)) ("```" ++ tag) = true).
  { apply (all_chars_impl (fun c => negb (isspace c))); [|exact Hfirst_space].
    intros c Hc. apply negb_true_iff in Hc. apply negb_true_iff.
    destruct (is_linebreak c) eqn:Hlb; [|reflexivity].
    apply linebreak_is_space in Hlb. congruence. }
  unfold Shared.clean_fences.
  assert (Hstart : startswith ("```" ++ tag ++ nl ++ join nl body ++ nl ++ "```")
                     "```" = true) by apply prefix_app.
  assert (Hend : endswith ("```" ++ tag ++ nl ++ join nl body ++ nl ++ "```")
                   "```" = true).
  { unfold endswith.
    replace ("```" ++ tag ++ nl ++ join nl body ++ nl ++ "```")
      with (("```" ++ tag ++ nl ++ join nl body ++ nl) ++ "```")
      by now rewrite !string_app_assoc.
    rewrite rev_string_app. apply prefix_app. }
  rewrite Hstart, Hend. cbn [andb].
  assert (Hlines : splitlines ("```" ++ tag ++ nl ++ join nl body ++ nl ++ "```")
                   = (("```" ++ tag)%string :: body ++ ["```"])%list).
  { unfold splitlines.
    replace ("```" ++ tag ++ nl ++ join nl body ++ nl ++ "```")
      with (("```" ++ tag) ++ nl ++ (join nl body ++ nl ++ "```"))
      by now rewrite !string_app_assoc.
    rewrite (splitlines_from_line ("```" ++ tag) "" _ Hfirst).
    rewrite (splitlines_block body "```" Hne Hbody eq_refl ltac:(discriminate)).
    reflexivity. }
  rewrite Hlines. cbn [hd List.length].
  replace (1 <? S (List.length (body ++ ["```"])))%nat with true.
  2:{ symmetry. apply Nat.ltb_lt. rewrite length_app. cbn [List.length]. lia. }
  rewrite (strip_no_space _ Hfirst_space).
  assert (Hdrop : drop 3 ("```" ++ tag) = tag).
  { unfold drop. cbn [append String.length Nat.sub substring].
    rewrite Nat.sub_0_r. apply substring_all. }
  rewrite Hdrop, (strip_no_space _ Htag).
  replace (List.length (split tag) <=? 1)%nat with true.
  2:{ symmetry. apply Nat.leb_le. apply split_no_space. exact Htag. }
  unfold slice_1_m1. cbn [tl]. now rewrite removelast_last.
Qed.

Lemma fenced_block_is_unwrapped_witness :
  Shared.clean_fences
    ("```" ++ "bash" ++ nl ++ join nl ["set -e"; ""; "echo done"] ++ nl ++ "```")
  = strip (join nl ["set -e"; ""; "echo done"]).
Proof.
  apply (fenced_block_is_unwrapped "bash" ["set -e"; ""; "echo done"]).
  - reflexivity.
  - discriminate.
  - repeat constructor.
Defined.

(** ** Answers in several parts *)

(** X17.  For an answer that finished with STOP and whose first
    candidate holds one or more text parts with a non-empty trimmed
    concatenation [t]: [generate_text] returns [t], and the parser of
    gemini.espeak_and_piper1.py (given no top-level error and no block
    reason) returns [t] after the fence removal.  All the parts count,
    not only the first. *)
Theorem all_parts_are_concatenated
    (rt : Runtime) (net : network) (api_key model_name prompt : string)
    (history : list pyval) (r : response)
    (items candidate content : list (string * pyval)) (others : list pyval)
    (texts : list string) :
  json r = inl (PDict items) ->
  field "candidates" items = PList (PDict candidate :: others) ->
  field "finishReason" candidate = PStr "STOP" ->
  lookup "content" candidate = Some (PDict content) ->
  lookup "parts" content = Some (PList (map text_part texts)) ->
  texts <> [] ->
  strip (String.concat "" texts) <> "" ->
  (net (GeminiHandler.api_request api_key model_name prompt history) = Return r ->
   ~ http_error_status r ->
   GeminiHandler.generate_text rt net api_key model_name prompt history
   = Return (strip (String.concat "" texts)))
  /\ (truthy (field "error" items) = false -> not_blocked items ->
      EspeakPiper1._parse_gemini_response rt (inl r)
      = Shared.clean_fences (strip (String.concat "" texts))).
Proof.
  intros Hjson Hcands Hfinish Hcontent Hparts Hne Htext.
  assert (Hc : truthy (PDict candidate) = true).
  { destruct candidate; [discriminate Hcontent | reflexivity]. }
  assert (Hk : truthy (PDict content) = true).
  { destruct content; [discriminate Hparts | reflexivity]. }
  assert (Hp : truthy (PList (map text_part texts)) = true).
  { destruct texts; [contradiction | reflexivity]. }
  apply String.eqb_neq in Htext.
  split.
  - intros Hnet Hstatus.
    unfold GeminiHandler.generate_text, GeminiHandler.try_block.
    rewrite Hnet. cbn [bind]. rewrite (raise_for_status_ok rt r Hstatus).
    cbn [bind]. unfold response_json. rewrite Hjson. cbn [bind].
    unfold GeminiHandler.read_body, GeminiHandler.has_parts.
    rewrite get_field. cbn [bind]. rewrite Hcands.
    change (truthy (PList (PDict candidate :: others))) with true.
    cbn [getitem0 bind get_default getitem get]. rewrite Hcontent.
    cbn [bind get_default getitem get]. rewrite Hparts. cbn [bind].
    rewrite Hp. cbn [bind iter].
    rewrite join_text_parts. cbn [bind]. now rewrite Htext.
  - intros Herr Hblock.
    apply (parse_decoded rt r (PDict items)); [exact Hjson|].
    unfold EspeakPiper1.parse_body. rewrite get_field. cbn [bind].
    rewrite Herr, (prompt_block_none rt items Hblock). cbn [bind].
    rewrite get_field. cbn [bind]. rewrite Hcands.
    change (truthy (PList (PDict candidate :: others))) with true.
    cbn [negb getitem0 bind]. rewrite Hc. cbn [negb].
    rewrite !get_field. cbn [bind]. rewrite Hfinish.
    unfold field. rewrite Hcontent.
    rewrite (extract_text_of_parts content texts Hne Hparts). cbn [bind].
    unfold EspeakPiper1.finish. cbn [truthy eq_str String.eqb Ascii.eqb Bool.eqb
      negb andb orb]. now rewrite Htext.
Qed.

Lemma all_parts_are_concatenated_witness :
  GeminiHandler.generate_text Demo.rt
    (Demo.net_answering
       (Demo.ok_response
          (PDict [("candidates",
                   PList [PDict [("content",
                                  PDict [("parts",
                                          PList (map text_part ["Hello, "; "world. "]))]);
                                 ("finishReason", PStr "STOP")]])])))
    "key" "model" "prompt" []
  = Return "Hello, world.".
Proof.
  apply (proj1 (all_parts_are_concatenated Demo.rt
                  (Demo.net_answering
                     (Demo.ok_response
                        (PDict [("candidates",
                                 PList [PDict [("content",
                                                PDict [("parts",
                                                        PList (map text_part
                                                                 ["Hello, "; "world. "]))]);
                                               ("finishReason", PStr "STOP")]])])))
                  "key" "model" "prompt" []
                  (Demo.ok_response
                     (PDict [("candidates",
                              PList [PDict [("content",
                                             PDict [("parts",
                                                     PList (map text_part
                                                              ["Hello, "; "world. "]))]);
                                            ("finishReason", PStr "STOP")]])]))
                  [("candidates",
                    PList [PDict [("content",
                                   PDict [("parts",
                                           PList (map text_part ["Hello, "; "world. "]))]);
                                  ("finishReason", PStr "STOP")]])]
                  [("content",
                    PDict [("parts", PList (map text_part ["Hello, "; "world. "]))]);
                   ("finishReason", PStr "STOP")]
                  [("parts", PList (map text_part ["Hello, "; "world. "]))]
                  [] ["Hello, "; "world. "]
                  eq_refl eq_refl eq_refl eq_refl eq_refl
                  ltac:(discriminate) ltac:(discriminate)));
    [reflexivity | unfold http_error_status; cbn; lia].
Defined.
